(** * storage-lib-azure-node: the BlobContainer and StorageQueue facades

    A shallow embedding of [util.js], [blobcontainer.js] and the two
    revisions of [storagequeue.js].  The Azure SDK and the JavaScript
    runtime are outside the repository: every SDK entry point the facades
    use is a constructor of [SdkCall], answered by an arbitrary handler
    that may return a response or throw, and that threads the state of the
    storage service.  Every invocation is appended to a log, so that the
    arguments the facade passes on are observable. *)

From Stdlib Require Import ZArith String List Lia.
From stdpp Require Import base option list gmap strings.

Local Open Scope string_scope.
Local Open Scope Z_scope.

(** ** JavaScript values *)

(** A parameter documented as [{string}]: absent, [null], or a string. *)
Inductive JsStr : Type :=
| undefined
| null
| str (s : string).

(** Truthiness of such a value: a string is truthy unless it is empty. *)
Definition truthy (v : JsStr) : bool :=
  match v with
  | str s => negb (String.eqb s "")
  | _ => false
  end.

(** A default parameter [x = d] replaces [undefined] only. *)
Definition default_param (d v : JsStr) : JsStr :=
  match v with
  | undefined => d
  | _ => v
  end.

(** Interpolation of the value in a template literal. *)
Definition ToString (v : JsStr) : string :=
  match v with
  | undefined => "undefined"
  | null => "null"
  | str s => s
  end.

(** [n || d] on an optional number: [undefined], and [0], are falsy. *)
Definition num_or (n : option Z) (d : Z) : Z :=
  match n with
  | Some v => if v =? 0 then d else v
  | None => d
  end.

(** ** Thrown values *)

(** What a [catch] clause can receive: an exception raised inside the SDK
    or the runtime (a [RestError] carries a [statusCode], a [TypeError] or
    [RangeError] does not), or the library's own [StorageError]
    ([util.js]: [super(message); this.code = code]). *)
Inductive Thrown : Type :=
| SdkError (statusCode : option Z) (message : string)
| StorageError (code : Z) (message : string).

(** [error.statusCode]: a [StorageError] has a [code] property and no
    [statusCode]. *)
Definition statusCode (error : Thrown) : option Z :=
  match error with
  | SdkError sc _ => sc
  | StorageError _ _ => None
  end.

(** [error.message] *)
Definition message (error : Thrown) : string :=
  match error with
  | SdkError _ m => m
  | StorageError _ m => m
  end.

(** The body of every [catch] clause of the facades:
    [new StorageError(error.statusCode || 500, error.message)]. *)
Definition as_StorageError (error : Thrown) : Thrown :=
  StorageError (num_or (statusCode error) 500) (message error).

(** ** Lazy sequences: readable streams and paged iterators

    A Node readable stream emits [data] events and then [end] or [error];
    an async iterator yields items and then completes or throws. *)
Inductive Lazy (A : Type) : Type :=
| Ended
| Failed (e : Thrown)
| Emit (a : A) (rest : Lazy A).
Arguments Ended {A}.
Arguments Failed {A} e.
Arguments Emit {A} a rest.

(** The stream that emits [items] and ends. *)
Fixpoint emits {A} (items : list A) : Lazy A :=
  match items with
  | [] => Ended
  | a :: rest => Emit a (emits rest)
  end.

Definition Buffer : Type := list Byte.byte.

(** [chunks.join('')] *)
Definition join (chunks : list string) : string :=
  fold_right String.append "" chunks.

Section Util.
(** [Buffer.prototype.toString()]: UTF-8 decoding, done by the runtime. *)
Variable Buffer_toString : Buffer -> string.

(** [streamToString], with the array [chunks] the handlers share:
    [data] pushes [data.toString()], [end] resolves with
    [chunks.join('')], [error] rejects. *)
Fixpoint streamToString_from (chunks : list string)
    (readableStream : Lazy Buffer) : Thrown + string :=
  match readableStream with
  | Emit data rest => streamToString_from (chunks ++ [Buffer_toString data]) rest
  | Ended => inr (join chunks)
  | Failed e => inl e
  end.

Definition streamToString (readableStream : Lazy Buffer) : Thrown + string :=
  streamToString_from [] readableStream.
End Util.

(** ** Dates (ECMA-262, section Date objects)

    A time value is a number of milliseconds since the epoch, or [None]
    for [NaN] (an invalid date). *)
Module Date.
Definition msPerSecond : Z := 1000.
Definition msPerMinute : Z := 60000.
Definition msPerHour : Z := 3600000.
Definition msPerDay : Z := 86400000.

Definition Day (t : Z) : Z := t / msPerDay.
Definition HourFromTime (t : Z) : Z := (t / msPerHour) mod 24.
Definition MinFromTime (t : Z) : Z := (t / msPerMinute) mod 60.
Definition SecFromTime (t : Z) : Z := (t / msPerSecond) mod 60.
Definition msFromTime (t : Z) : Z := t mod msPerSecond.

Definition MakeTime (hour min sec ms : Z) : Z :=
  hour * msPerHour + min * msPerMinute + sec * msPerSecond + ms.
Definition MakeDate (day time : Z) : Z := day * msPerDay + time.

Definition TimeClip (time : Z) : option Z :=
  if 8640000000000000 <? Z.abs time then None else Some time.

Section LocalTime.
(** [LocalTZA t isUTC]: the offset of the process's time zone, at the
    UTC time [t] when [isUTC], at the local time [t] otherwise. *)
Variable LocalTZA : Z -> bool -> Z.

Definition LocalTime (t : Z) : Z := t + LocalTZA t true.
Definition UTC (t : Z) : Z := t - LocalTZA t false.

(** [Date.prototype.getMinutes] *)
Definition getMinutes (tv : option Z) : option Z :=
  t ← tv; Some (MinFromTime (LocalTime t)).

(** [Date.prototype.setMinutes(min)]: the new time value. *)
Definition setMinutes (tv : option Z) (min : option Z) : option Z :=
  t ← tv; m ← min;
  let t := LocalTime t in
  let date := MakeDate (Day t) (MakeTime (HourFromTime t) m (SecFromTime t) (msFromTime t)) in
  TimeClip (UTC date).
End LocalTime.
End Date.

(** ** The SDK boundary *)

(** [Buffer.byteLength(content)]: a string is given by its UTF-16 code
    units and measured by the length of its UTF-8 encoding (a surrogate
    pair takes four bytes, a lone surrogate is replaced by U+FFFD, three
    bytes); a [Buffer] is measured by its size. *)
Inductive Content : Type :=
| Text (units : list Z)
| Bytes (b : Buffer).

Definition is_lead (u : Z) : bool := (0xD800 <=? u) && (u <=? 0xDBFF).
Definition is_trail (u : Z) : bool := (0xDC00 <=? u) && (u <=? 0xDFFF).

Fixpoint utf8_length (units : list Z) : Z :=
  match units with
  | [] => 0
  | u :: rest =>
      if u <? 0x80 then 1 + utf8_length rest
      else if u <? 0x800 then 2 + utf8_length rest
      else if is_lead u then
        match rest with
        | v :: rest' =>
            if is_trail v then 4 + utf8_length rest' else 3 + utf8_length rest
        | [] => 3
        end
      else 3 + utf8_length rest
  end.

Definition Buffer_byteLength (content : Content) : Z :=
  match content with
  | Text units => utf8_length units
  | Bytes b => Z.of_nat (length b)
  end.

(** [StorageSharedKeyCredential] and the service clients, as the SDK's
    constructors return them. *)
Record Credential : Type :=
  { credentialName : string; credentialKey : string }.

Record Client : Type :=
  { url : string; credential : option Credential }.

(** The result of a [*SASPermissions.parse] call. *)
Inductive SASPermissions : Type :=
| Permissions (flags : string).

(** Property values of the object literals handed to the SDK. *)
Inductive JsVal : Type :=
| JsString (s : string)
| JsNumber (n : Z)
| JsDate (tv : option Z)
| JsPermissions (p : SASPermissions).

(** Responses, with the properties the facades read. *)
Record Response : Type := { requestId : option string }.
Record ContainerItem : Type := { containerItemName : string }.
Record BlobItem : Type := { blobItemName : string; blobContentLength : Z }.
Record QueueItem : Type := { queueItemName : string }.
Record DownloadResponse : Type := { readableStreamBody : Lazy Buffer }.
Record SendMessageResponse : Type :=
  { sentMessageId : option string; sentRequestId : option string }.
Record PeekMessagesResponse : Type :=
  { peekedMessageItems : list string; peekRequestId : option string }.

Inductive Package : Type := storage_blob | storage_queue.

(** The SDK entry points the facades use, indexed by what they return.
    A method reached through a sub-client, such as
    [client.getContainerClient(name).create()], is one call that carries
    the service client and the names; a signing call stands for
    [generate*SASQueryParameters(values, credential).toString()]. *)
Inductive SdkCall : Type -> Type :=
| StorageSharedKeyCredential_new (pkg : Package) (accountName accountKey : string)
    : SdkCall Credential
| BlobServiceClient_new (endpoint : string) (cred : option Credential) : SdkCall Client
| ContainerClient_create (client : Client) (containerName : string) : SdkCall Response
| BlobServiceClient_listContainers (client : Client) : SdkCall (Lazy ContainerItem)
| BlockBlobClient_upload (client : Client) (containerName blobName : string)
    (body : Content) (contentLength : Z) : SdkCall Response
| ContainerClient_listBlobsFlat (client : Client) (containerName : string)
    : SdkCall (Lazy BlobItem)
| BlockBlobClient_download (client : Client) (containerName blobName : string)
    (offset : Z) (count : option Z) : SdkCall DownloadResponse
| ContainerClient_delete (client : Client) (containerName : string) : SdkCall Response
| BlockBlobClient_delete (client : Client) (containerName blobName : string)
    : SdkCall Response
| BlobSASPermissions_parse (permissions : string) : SdkCall SASPermissions
| ContainerSASPermissions_parse (permissions : string) : SdkCall SASPermissions
| generateBlobSASQueryParameters (values : gmap string JsVal)
    (sharedKeyCredential : option Credential) : SdkCall string
| QueueServiceClient_new (endpoint : string) (cred : option Credential) : SdkCall Client
| QueueClient_create (client : Client) (queueName : string) : SdkCall Response
| QueueServiceClient_listQueues (client : Client) (options : option (gmap string JsVal))
    : SdkCall (Lazy QueueItem)
| QueueClient_delete (client : Client) (queueName : string) : SdkCall Response
| QueueClient_sendMessage (client : Client) (queueName messageText : string)
    (options : option (gmap string JsVal)) : SdkCall SendMessageResponse
| QueueClient_peekMessages (client : Client) (queueName : string)
    : SdkCall PeekMessagesResponse
| QueueSASPermissions_parse (permissions : string) : SdkCall SASPermissions
| generateQueueSASQueryParameters (values : gmap string JsVal)
    (sharedKeyCredential : option Credential) : SdkCall string.

Inductive Invocation : Type :=
| Invoked {R : Type} (call : SdkCall R).

(** An SDK: each call, in a state of the storage service, returns or
    throws, and leaves a new state. *)
Definition SdkHandler (S : Type) : Type :=
  forall R, SdkCall R -> S -> (Thrown + R) * S.

(** ** Effects of a facade method *)

Record World (S : Type) : Type :=
  { service : S; calls : list Invocation }.
Arguments service {S} _.
Arguments calls {S} _.

Definition Eff (S A : Type) : Type := World S -> (Thrown + A) * World S.

Definition ret {S A} (a : A) : Eff S A := fun w => (inr a, w).
Definition throw {S A} (e : Thrown) : Eff S A := fun w => (inl e, w).
Definition bind {S A B} (m : Eff S A) (k : A -> Eff S B) : Eff S B :=
  fun w =>
    match m w with
    | (inr a, w') => k a w'
    | (inl e, w') => (inl e, w')
    end.

(** [try { body } catch (error) { handler }] *)
Definition try_catch {S A} (body : Eff S A) (handler : Thrown -> Eff S A) : Eff S A :=
  fun w =>
    match body w with
    | (inl error, w') => handler error w'
    | (inr a, w') => (inr a, w')
    end.

(** Completion of a promise or of a synchronous call that was computed
    without the SDK. *)
Definition settle {S A} (r : Thrown + A) : Eff S A :=
  match r with
  | inr a => ret a
  | inl e => throw e
  end.

Definition invoke {S R} (sdk : SdkHandler S) (call : SdkCall R) : Eff S R :=
  fun w =>
    let (r, s') := sdk R call (service w) in
    (r, {| service := s'; calls := calls w ++ [Invoked call] |}).

Declare Scope eff_scope.
Delimit Scope eff_scope with eff.
Notation "'let*' x := m 'in' k" := (bind m (fun x => k))
  (at level 10, x name, m at level 100, k at level 200) : eff_scope.

(** [for await (const item of iter) acc.push(f(item))], then [return acc]. *)
Fixpoint for_await {A B} (f : A -> B) (acc : list B) (iter : Lazy A) : Thrown + list B :=
  match iter with
  | Emit item rest => for_await f (acc ++ [f item]) rest
  | Ended => inr acc
  | Failed e => inl e
  end.

(** ** Fields of an instance: [BlobContainer] and [StorageQueue] assign the
    same ones ([logger] apart: the [logger.info] lines of the methods are
    left out, no result depends on them). *)
Record Facade : Type :=
  { accountName : JsStr;
    accountKey : JsStr;
    sasToken : JsStr;
    sharedKeyCredential : option Credential;
    client : Client }.

(** The constructor's parameter object. *)
Record Credentials : Type :=
  { givenAccountName : JsStr;
    givenAccountKey : JsStr;
    givenSasToken : JsStr }.

(** ** blobcontainer.js *)
Module BlobContainer.

(** Parameter object of [generateSasToken]; [None] is an omitted number. *)
Record SasParams : Type :=
  { containerName : string;
    blobName : JsStr;
    permissions : JsStr;
    expireTime : option Z;
    clockSkewMarginMinutes : option Z }.

Section Methods.
Context {S : Type}.
Variable sdk : SdkHandler S.
Variable Buffer_toString : Buffer -> string.
Variable LocalTZA : Z -> bool -> Z.

Local Open Scope eff_scope.

Definition constructor (params : Credentials) : Eff S Facade :=
  let accountName := givenAccountName params in
  let accountKey := default_param null (givenAccountKey params) in
  let sasToken := default_param null (givenSasToken params) in
  try_catch
    (if truthy accountName && truthy accountKey then
       let* sharedKeyCredential :=
         invoke sdk (StorageSharedKeyCredential_new storage_blob
                       (ToString accountName) (ToString accountKey)) in
       let* client :=
         invoke sdk (BlobServiceClient_new
                       ("https://" +:+ ToString accountName +:+ ".blob.core.windows.net")
                       (Some sharedKeyCredential)) in
       ret {| accountName := accountName; accountKey := accountKey;
              sasToken := sasToken;
              sharedKeyCredential := Some sharedKeyCredential;
              client := client |}
     else if truthy accountName && truthy sasToken then
       let* client :=
         invoke sdk (BlobServiceClient_new
                       ("https://" +:+ ToString accountName +:+ ".blob.core.windows.net?"
                          +:+ ToString sasToken)
                       None) in
       ret {| accountName := accountName; accountKey := accountKey;
              sasToken := sasToken;
              sharedKeyCredential := None;
              client := client |}
     else throw (StorageError 401 "Missing authentication"))
    (fun error => throw (as_StorageError error)).


Definition listContainers (this : Facade) : Eff S (list string) :=
  try_catch
    (let* iter := invoke sdk (BlobServiceClient_listContainers (client this)) in
     settle (for_await containerItemName [] iter))
    (fun error => throw (as_StorageError error)).

Definition createBlob (this : Facade) (containerName blobName : string)
    (content : Content) : Eff S (option string) :=
  try_catch
    (let* uploadBlobResponse :=
       invoke sdk (BlockBlobClient_upload (client this) containerName blobName
                     content (Buffer_byteLength content)) in
     ret (requestId uploadBlobResponse))
    (fun error => throw (as_StorageError error)).

Definition listBlobs (this : Facade) (containerName : string)
  : Eff S (list BlobItem) :=
  try_catch
    (let* iter := invoke sdk (ContainerClient_listBlobsFlat (client this) containerName) in
     settle (for_await (fun blob => blob) [] iter))
    (fun error => throw (as_StorageError error)).

Definition getBlobContent (this : Facade) (containerName blobName : string)
  : Eff S string :=
  try_catch
    (let* downloadBlockBlobResponse :=
       invoke sdk (BlockBlobClient_download (client this) containerName blobName 0 None) in
     let* content :=
       settle (streamToString Buffer_toString
                 (readableStreamBody downloadBlockBlobResponse)) in
     ret content)
    (fun error => throw (as_StorageError error)).



(** The two dates of [generateSasToken], computed from the clock
    reading [now] of [new Date()]; [expiryDate] copies [startDate]
    before either is changed. *)
Definition sasDates (now : Z) (expireTime clockSkewMarginMinutes : Z)
  : option Z * option Z :=
  let startDate := Some now in
  let expiryDate := startDate in
  let startDate :=
    Date.setMinutes LocalTZA startDate
      (m ← Date.getMinutes LocalTZA startDate; Some (m - clockSkewMarginMinutes)) in
  let expiryDate :=
    Date.setMinutes LocalTZA expiryDate
      (m ← Date.getMinutes LocalTZA expiryDate; Some (m + expireTime)) in
  (startDate, expiryDate).

(** The object literals passed to [generateBlobSASQueryParameters]. *)
Definition blobSASSignatureValues (containerName blobName : string)
    (permissions : SASPermissions) (startDate expiryDate : option Z)
  : gmap string JsVal :=
  list_to_map
    [ ("containerName", JsString containerName);
      ("blobName", JsString blobName);
      ("permissions", JsPermissions permissions);
      ("startsOn", JsDate startDate);
      ("expiresOn", JsDate expiryDate) ].

Definition containerSASSignatureValues (containerName : string)
    (permissions : SASPermissions) (startDate expiryDate : option Z)
  : gmap string JsVal :=
  list_to_map
    [ ("containerName", JsString containerName);
      ("permissions", JsPermissions permissions);
      ("startsOn", JsDate startDate);
      ("expiresOn", JsDate expiryDate) ].

Definition generateSasToken (this : Facade) (now : Z) (params : SasParams)
  : Eff S string :=
  let permissions := default_param null (permissions params) in
  let expireTime := default 60 (expireTime params) in
  let clockSkewMarginMinutes := default 5 (clockSkewMarginMinutes params) in
  let '(startDate, expiryDate) := sasDates now expireTime clockSkewMarginMinutes in
  let permissions := if truthy permissions then ToString permissions else "r" in
  if truthy (blobName params) then
    let* parsed := invoke sdk (BlobSASPermissions_parse permissions) in
    invoke sdk (generateBlobSASQueryParameters
                  (blobSASSignatureValues (containerName params)
                     (ToString (blobName params)) parsed startDate expiryDate)
                  (sharedKeyCredential this))
  else
    let* parsed := invoke sdk (ContainerSASPermissions_parse permissions) in
    invoke sdk (generateBlobSASQueryParameters
                  (containerSASSignatureValues (containerName params)
                     parsed startDate expiryDate)
                  (sharedKeyCredential this)).
End Methods.
End BlobContainer.

(** ** storagequeue.js, first revision (no prefix filter, no message
    options, no SAS generation) *)
Module StorageQueueEarlier.
Section Methods.
Context {S : Type}.
Variable sdk : SdkHandler S.

Local Open Scope eff_scope.

Definition constructor (params : Credentials) : Eff S Facade :=
  let accountName := givenAccountName params in
  let accountKey := default_param null (givenAccountKey params) in
  let sasToken := default_param null (givenSasToken params) in
  try_catch
    (if truthy accountName && truthy accountKey then
       let* sharedKeyCredential :=
         invoke sdk (StorageSharedKeyCredential_new storage_queue
                       (ToString accountName) (ToString accountKey)) in
       let* client :=
         invoke sdk (QueueServiceClient_new
                       ("https://" +:+ ToString accountName +:+ ".queue.core.windows.net")
                       (Some sharedKeyCredential)) in
       ret {| accountName := accountName; accountKey := accountKey;
              sasToken := sasToken;
              sharedKeyCredential := Some sharedKeyCredential;
              client := client |}
     else if truthy accountName && truthy sasToken then
       let* client :=
         invoke sdk (QueueServiceClient_new
                       ("https://" +:+ ToString accountName +:+ ".queue.core.windows.net?"
                          +:+ ToString sasToken)
                       None) in
       ret {| accountName := accountName; accountKey := accountKey;
              sasToken := sasToken;
              sharedKeyCredential := None;
              client := client |}
     else throw (StorageError 401 "Missing authentication"))
    (fun error => throw (as_StorageError error)).

Definition create (this : Facade) (queueName : string) : Eff S (option string) :=
  try_catch
    (let* response := invoke sdk (QueueClient_create (client this) queueName) in
     ret (requestId response))
    (fun error => throw (as_StorageError error)).

(** [this.client.listQueues()]: called without an argument. *)
Definition list (this : Facade) : Eff S (list string) :=
  try_catch
    (let* iter := invoke sdk (QueueServiceClient_listQueues (client this) None) in
     settle (for_await queueItemName [] iter))
    (fun error => throw (as_StorageError error)).

Definition delete (this : Facade) (queueName : string) : Eff S (option string) :=
  try_catch
    (let* response := invoke sdk (QueueClient_delete (client this) queueName) in
     ret (requestId response))
    (fun error => throw (as_StorageError error)).

(** [queueClient.sendMessage(message)]: no options argument. *)
Definition sendMessage (this : Facade) (queueName message : string)
  : Eff S (option string * option string) :=
  try_catch
    (let* response :=
       invoke sdk (QueueClient_sendMessage (client this) queueName message None) in
     ret (sentMessageId response, sentRequestId response))
    (fun error => throw (as_StorageError error)).

Definition peekMessages (this : Facade) (queueName : string)
  : Eff S PeekMessagesResponse :=
  try_catch
    (let* response := invoke sdk (QueueClient_peekMessages (client this) queueName) in
     ret response)
    (fun error => throw (as_StorageError error)).
End Methods.
End StorageQueueEarlier.

(** ** storagequeue.js, second revision *)
Module StorageQueue.

Record SasParams : Type :=
  { queueName : string;
    permissions : JsStr;
    expireTime : option Z;
    clockSkewMarginMinutes : option Z }.

(** [if (n) ...] on an optional number: [null], [undefined] and [0] are
    falsy. *)
Definition num_truthy (n : option Z) : bool :=
  match n with
  | Some v => negb (v =? 0)
  | None => false
  end.

Section Methods.
Context {S : Type}.
Variable sdk : SdkHandler S.
Variable LocalTZA : Z -> bool -> Z.

Local Open Scope eff_scope.

Definition constructor (params : Credentials) : Eff S Facade :=
  let accountName := givenAccountName params in
  let accountKey := default_param null (givenAccountKey params) in
  let sasToken := default_param null (givenSasToken params) in
  try_catch
    (if truthy accountName && truthy accountKey then
       let* sharedKeyCredential :=
         invoke sdk (StorageSharedKeyCredential_new storage_queue
                       (ToString accountName) (ToString accountKey)) in
       let* client :=
         invoke sdk (QueueServiceClient_new
                       ("https://" +:+ ToString accountName +:+ ".queue.core.windows.net")
                       (Some sharedKeyCredential)) in
       ret {| accountName := accountName; accountKey := accountKey;
              sasToken := sasToken;
              sharedKeyCredential := Some sharedKeyCredential;
              client := client |}
     else if truthy accountName && truthy sasToken then
       let* client :=
         invoke sdk (QueueServiceClient_new
                       ("https://" +:+ ToString accountName +:+ ".queue.core.windows.net?"
                          +:+ ToString sasToken)
                       None) in
       ret {| accountName := accountName; accountKey := accountKey;
              sasToken := sasToken;
              sharedKeyCredential := None;
              client := client |}
     else throw (StorageError 401 "Missing authentication"))
    (fun error => throw (as_StorageError error)).

Definition create (this : Facade) (queueName : string) : Eff S (option string) :=
  try_catch
    (let* response := invoke sdk (QueueClient_create (client this) queueName) in
     ret (requestId response))
    (fun error => throw (as_StorageError error)).

(** [const options = {}; if (prefix) options.prefix = prefix] *)
Definition listOptions (prefix : JsStr) : gmap string JsVal :=
  let options := ∅ in
  if truthy prefix then <["prefix" := JsString (ToString prefix)]> options
  else options.

Definition list (this : Facade) (prefix : JsStr) : Eff S (list string) :=
  let prefix := default_param null prefix in
  try_catch
    (let options := listOptions prefix in
     let* iter :=
       invoke sdk (QueueServiceClient_listQueues (client this) (Some options)) in
     settle (for_await queueItemName [] iter))
    (fun error => throw (as_StorageError error)).

Definition delete (this : Facade) (queueName : string) : Eff S (option string) :=
  try_catch
    (let* response := invoke sdk (QueueClient_delete (client this) queueName) in
     ret (requestId response))
    (fun error => throw (as_StorageError error)).

Definition sendOptions (timeToLive visibilityTimeout : option Z)
  : gmap string JsVal :=
  let options := ∅ in
  let options :=
    if num_truthy timeToLive
    then <["messageTimeToLive" := JsNumber (default 0 timeToLive)]> options
    else options in
  if num_truthy visibilityTimeout
  then <["visibilityTimeout" := JsNumber (default 0 visibilityTimeout)]> options
  else options.

Definition sendMessage (this : Facade) (queueName message : string)
    (timeToLive visibilityTimeout : option Z)
  : Eff S (option string * option string) :=
  try_catch
    (let options := sendOptions timeToLive visibilityTimeout in
     let* response :=
       invoke sdk (QueueClient_sendMessage (client this) queueName message
                     (Some options)) in
     ret (sentMessageId response, sentRequestId response))
    (fun error => throw (as_StorageError error)).

Definition peekMessages (this : Facade) (queueName : string)
  : Eff S PeekMessagesResponse :=
  try_catch
    (let* response := invoke sdk (QueueClient_peekMessages (client this) queueName) in
     ret response)
    (fun error => throw (as_StorageError error)).

(** The same date arithmetic as in [blobcontainer.js]. *)
Definition sasDates (now : Z) (expireTime clockSkewMarginMinutes : Z)
  : option Z * option Z :=
  let startDate := Some now in
  let expiryDate := startDate in
  let startDate :=
    Date.setMinutes LocalTZA startDate
      (m ← Date.getMinutes LocalTZA startDate; Some (m - clockSkewMarginMinutes)) in
  let expiryDate :=
    Date.setMinutes LocalTZA expiryDate
      (m ← Date.getMinutes LocalTZA expiryDate; Some (m + expireTime)) in
  (startDate, expiryDate).

(** The object literal passed to [generateQueueSASQueryParameters]:
    the queue's name is stored under the key [containerName]. *)
Definition queueSASSignatureValues (queueName : string)
    (permissions : SASPermissions) (startDate expiryDate : option Z)
  : gmap string JsVal :=
  list_to_map
    [ ("containerName", JsString queueName);
      ("permissions", JsPermissions permissions);
      ("startsOn", JsDate startDate);
      ("expiresOn", JsDate expiryDate) ].

Definition generateSasToken (this : Facade) (now : Z) (params : SasParams)
  : Eff S string :=
  let permissions := default_param null (permissions params) in
  let expireTime := default 60 (expireTime params) in
  let clockSkewMarginMinutes := default 5 (clockSkewMarginMinutes params) in
  let '(startDate, expiryDate) := sasDates now expireTime clockSkewMarginMinutes in
  let permissions := if truthy permissions then ToString permissions else "r" in
  let* parsed := invoke sdk (QueueSASPermissions_parse permissions) in
  invoke sdk (generateQueueSASQueryParameters
                (queueSASSignatureValues (queueName params)
                   parsed startDate expiryDate)
                (sharedKeyCredential this)).
End Methods.
End StorageQueue.

(** ** A small SDK to run the facades on

    Credentials and clients record their arguments, listings are fixed,
    signing needs a shared-key credential, and an absent options argument
    is read as [{}] (the SDK's declared default). *)
Module Demo.
Definition queueNames : list string := ["orders"; "test1"; "test2"].

Definition prefixOf (options : option (gmap string JsVal)) : string :=
  match options with
  | Some o => match o !! "prefix" with Some (JsString p) => p | _ => "" end
  | None => ""
  end.

Definition sdk : SdkHandler unit :=
  fun R call s =>
    match call in SdkCall R return (Thrown + R) * unit with
    | StorageSharedKeyCredential_new _ n k =>
        (inr {| credentialName := n; credentialKey := k |}, s)
    | BlobServiceClient_new endpoint cred
    | QueueServiceClient_new endpoint cred =>
        (inr {| url := endpoint; credential := cred |}, s)
    | ContainerClient_create _ name =>
        if String.eqb name "taken"
        then (inl (SdkError (Some 409) "The specified container already exists."), s)
        else (inr {| requestId := Some "req-1" |}, s)
    | BlobServiceClient_listContainers _ =>
        (inr (emits [{| containerItemName := "c1" |}]), s)
    | BlockBlobClient_upload _ _ _ _ _ => (inr {| requestId := Some "req-2" |}, s)
    | ContainerClient_listBlobsFlat _ _ =>
        (inr (emits [{| blobItemName := "a.csv"; blobContentLength := 8 |}]), s)
    | BlockBlobClient_download _ _ _ _ _ =>
        (inr {| readableStreamBody :=
                  emits [ list_byte_of_string "x,y"; list_byte_of_string "1,2" ] |}, s)
    | ContainerClient_delete _ _
    | BlockBlobClient_delete _ _ _ => (inr {| requestId := Some "req-3" |}, s)
    | BlobSASPermissions_parse p
    | ContainerSASPermissions_parse p
    | QueueSASPermissions_parse p => (inr (Permissions p), s)
    | generateBlobSASQueryParameters _ cred
    | generateQueueSASQueryParameters _ cred =>
        match cred with
        | Some _ => (inr "sv=2019-07-07&sp=r&sig=c2ln", s)
        | None =>
            (inl (SdkError None
                    "Invalid sharedKeyCredential, userDelegationKey or accountName."), s)
        end
    | QueueClient_create _ _
    | QueueClient_delete _ _ => (inr {| requestId := Some "req-4" |}, s)
    | QueueServiceClient_listQueues _ options =>
        (inr (emits (map (fun n => {| queueItemName := n |})
                       (filter (fun n => String.prefix (prefixOf options) n = true)
                          queueNames))), s)
    | QueueClient_sendMessage _ _ _ _ =>
        (inr {| sentMessageId := Some "msg-1"; sentRequestId := Some "req-5" |}, s)
    | QueueClient_peekMessages _ _ =>
        (inr {| peekedMessageItems := ["hello"]; peekRequestId := Some "req-6" |}, s)
    end.

Definition world : World unit := {| service := tt; calls := [] |}.

Definition sharedKey : Credentials :=
  {| givenAccountName := str "devstoreaccount1";
     givenAccountKey := str "a2V5";
     givenSasToken := undefined |}.

Definition sasOnly : Credentials :=
  {| givenAccountName := str "devstoreaccount1";
     givenAccountKey := undefined;
     givenSasToken := str "sv=2019-07-07&sp=r&sig=c2ln" |}.

Definition keyAndSas : Credentials :=
  {| givenAccountName := str "devstoreaccount1";
     givenAccountKey := str "a2V5";
     givenSasToken := str "sv=2019-07-07&sp=r&sig=c2ln" |}.

Definition nameOnly : Credentials :=
  {| givenAccountName := str "devstoreaccount1";
     givenAccountKey := undefined;
     givenSasToken := undefined |}.

(** What the constructors leave in [this] for the two credential modes. *)
Definition keyCredential : Credential :=
  {| credentialName := "devstoreaccount1"; credentialKey := "a2V5" |}.

Definition blobWithKey : Facade :=
  {| accountName := str "devstoreaccount1"; accountKey := str "a2V5";
     sasToken := null; sharedKeyCredential := Some keyCredential;
     client := {| url := "https://devstoreaccount1.blob.core.windows.net";
                  credential := Some keyCredential |} |}.

Definition blobWithSas : Facade :=
  {| accountName := str "devstoreaccount1"; accountKey := null;
     sasToken := str "sv=2019-07-07&sp=r&sig=c2ln"; sharedKeyCredential := None;
     client :=
       {| url := "https://devstoreaccount1.blob.core.windows.net?sv=2019-07-07&sp=r&sig=c2ln";
          credential := None |} |}.

Definition queueWithKey : Facade :=
  {| accountName := str "devstoreaccount1"; accountKey := str "a2V5";
     sasToken := null; sharedKeyCredential := Some keyCredential;
     client := {| url := "https://devstoreaccount1.queue.core.windows.net";
                  credential := Some keyCredential |} |}.

(** A fixed-offset zone (UTC), and Europe/Amsterdam around the end of
    summer time on 2020-10-25T01:00:00Z: local times up to 03:00,
    the repeated hour included, are read with the offset in force
    before the transition. *)
Definition utc (t : Z) (isUTC : bool) : Z := 0.

Definition amsterdam (t : Z) (isUTC : bool) : Z :=
  if isUTC
  then if t <? 1603587600000 then 7200000 else 3600000
  else if t <? 1603587600000 + 7200000 then 7200000 else 3600000.
End Demo.

(** ** Vocabulary of the properties *)

(** The two credential modes of a successful construction, with the SDK
    objects the constructor obtained. *)
Inductive Constructed {S} (sdk : SdkHandler S) (pkg : Package)
    (new_client : string -> option Credential -> SdkCall Client) (host : string)
    (params : Credentials) (w : World S) (this : Facade) (w' : World S) : Prop :=
| with_shared_key (cred : Credential) (s1 s2 : S)
    (Hkey : truthy (givenAccountKey params) = true)
    (Hcred : sdk _ (StorageSharedKeyCredential_new pkg
                      (ToString (givenAccountName params))
                      (ToString (default_param null (givenAccountKey params))))
               (service w) = (inr cred, s1))
    (Hclient : sdk _ (new_client
                        ("https://" +:+ ToString (givenAccountName params) +:+ host)
                        (Some cred)) s1 = (inr (client this), s2))
    (Hsigning : sharedKeyCredential this = Some cred)
    (Hcalls : calls w' =
              (calls w ++
               [ Invoked (StorageSharedKeyCredential_new pkg
                            (ToString (givenAccountName params))
                            (ToString (default_param null (givenAccountKey params))));
                 Invoked (new_client
                            ("https://" +:+ ToString (givenAccountName params) +:+ host)
                            (Some cred)) ])%list)
| with_sas_token (s1 : S)
    (Hkey : truthy (givenAccountKey params) = false)
    (Hsas : truthy (givenSasToken params) = true)
    (Hclient : sdk _ (new_client
                        ("https://" +:+ ToString (givenAccountName params) +:+ host
                           +:+ "?" +:+ ToString (default_param null (givenSasToken params)))
                        None) (service w) = (inr (client this), s1))
    (Hsigning : sharedKeyCredential this = None)
    (Hcalls : calls w' =
              (calls w ++
               [ Invoked (new_client
                            ("https://" +:+ ToString (givenAccountName params) +:+ host
                               +:+ "?" +:+ ToString (default_param null (givenSasToken params)))
                            None) ])%list).

(** The invariant as the specification words it: exactly one of the two
    credentials was supplied. *)
Definition exactly_one_credential (params : Credentials) : Prop :=
  (truthy (givenAccountKey params) = true /\ truthy (givenSasToken params) = false)
  \/ (truthy (givenAccountKey params) = false /\ truthy (givenSasToken params) = true).

(** The credential argument of every signing call in a log. *)
Definition signer (i : Invocation) : list (option Credential) :=
  match i with
  | Invoked call =>
      match call with
      | generateBlobSASQueryParameters _ cred
      | generateQueueSASQueryParameters _ cred => [cred]
      | _ => []
      end
  end.

Definition signers (log : list Invocation) : list (option Credential) :=
  flat_map signer log.

(** An SDK whose signing primitives throw when no shared-key credential
    is passed, as [generateBlobSASQueryParameters] and
    [generateQueueSASQueryParameters] do on [undefined]. *)
Definition signing_needs_credential {S} (sdk : SdkHandler S) : Prop :=
  forall values s,
    (exists e s', sdk _ (generateBlobSASQueryParameters values None) s = (inl e, s'))
    /\ (exists e s', sdk _ (generateQueueSASQueryParameters values None) s = (inl e, s')).

(** The items a lazy sequence gives before it stops, and the failure it
    stops with, if any. *)
Fixpoint items_of {A} (l : Lazy A) : list A :=
  match l with
  | Emit a rest => a :: items_of rest
  | _ => []
  end.

Fixpoint failure_of {A} (l : Lazy A) : option Thrown :=
  match l with
  | Emit _ rest => failure_of rest
  | Failed e => Some e
  | Ended => None
  end.

(** The code the specification assigns to a failure: its status code
    when it has one that is not zero, 500 otherwise. *)
Definition reported_code (underlying : Thrown) : Z :=
  match statusCode underlying with
  | Some c => if decide (c = 0) then 500 else c
  | None => 500
  end.

Definition reported (underlying : Thrown) : Thrown :=
  StorageError (reported_code underlying) (message underlying).

(** [wraps sdk call finish op]: the method [op] makes the one SDK call
    [call]; it returns what [finish] makes of the response, and it fails
    with the [StorageError] reported for whatever the call, or [finish],
    threw. *)
Definition wraps {S R A} (sdk : SdkHandler S) (call : SdkCall R)
    (finish : R -> Thrown + A) (op : Eff S A) : Prop :=
  forall w,
    op w
    = (match fst (sdk R call (service w)) with
       | inl underlying => inl (reported underlying)
       | inr response =>
           match finish response with
           | inl underlying => inl (reported underlying)
           | inr a => inr a
           end
       end,
       {| service := snd (sdk R call (service w));
          calls := calls w ++ [Invoked call] |}).


(** An SDK that reads an absent options argument as [{}], as the default
    parameters [options = {}] of [listQueues] and [sendMessage] do. *)
Definition absent_options_default {S} (sdk : SdkHandler S) : Prop :=
  (forall client s,
      sdk _ (QueueServiceClient_listQueues client None) s
      = sdk _ (QueueServiceClient_listQueues client (Some ∅)) s)
  /\ (forall client queueName messageText s,
         sdk _ (QueueClient_sendMessage client queueName messageText None) s
         = sdk _ (QueueClient_sendMessage client queueName messageText (Some ∅)) s).

(** What a successful construction did, for a facade whose service
    client is made by [new_client] at the host suffix [host]: with a key,
    it made the shared-key credential from the name and the key, then
    the client for the plain endpoint with that credential, which it
    retains; without a key, it made the client for the endpoint followed
    by [?] and the token, with no credential, and retains none.  These
    are all the SDK calls it made. *)
Definition constructed_from {S} (sdk : SdkHandler S) (pkg : Package)
    (new_client : string -> option Credential -> SdkCall Client) (host : string)
    (params : Credentials) (w : World S) (this : Facade) (w' : World S) : Prop :=
  let name := ToString (givenAccountName params) in
  truthy (givenAccountName params) = true
  /\ ((truthy (givenAccountKey params) = true
       /\ exists cred s1 s2,
           let newCredential :=
             StorageSharedKeyCredential_new pkg name (ToString (givenAccountKey params)) in
           let newClient := new_client ("https://" +:+ name +:+ host) (Some cred) in
           sdk _ newCredential (service w) = (inr cred, s1)
           /\ sdk _ newClient s1 = (inr (client this), s2)
           /\ sharedKeyCredential this = Some cred
           /\ w' = {| service := s2;
                      calls := calls w ++ [Invoked newCredential; Invoked newClient] |})
      \/ (truthy (givenAccountKey params) = false
          /\ truthy (givenSasToken params) = true
          /\ exists s1,
              let newClient :=
                new_client ("https://" +:+ name +:+ host +:+ "?"
                              +:+ ToString (givenSasToken params)) None in
              sdk _ newClient (service w) = (inr (client this), s1)
              /\ sharedKeyCredential this = None
              /\ w' = {| service := s1; calls := calls w ++ [Invoked newClient] |})).

(** The permission string that is parsed: the given one, ['r'] when it
    is absent, [null] or empty. *)
Definition permissions_or_r (permissions : JsStr) : string :=
  match permissions with
  | str p => if String.eqb p "" then "r" else p
  | _ => "r"
  end.

(** [BlobContainer.generateSasToken], run in [w], parses the permissions
    and, unless that throws, signs with the credential [cred]: it
    returns or throws what the signing call returns or throws. *)
Definition BlobContainer_signs_with {S} (sdk : SdkHandler S) (LocalTZA : Z -> bool -> Z)
    (this : Facade) (now : Z) (params : BlobContainer.SasParams)
    (cred : option Credential) (w : World S) : Prop :=
  let perms := permissions_or_r (BlobContainer.permissions params) in
  let parse :=
    if truthy (BlobContainer.blobName params)
    then BlobSASPermissions_parse perms
    else ContainerSASPermissions_parse perms in
  let dates :=
    BlobContainer.sasDates LocalTZA now
      (default 60 (BlobContainer.expireTime params))
      (default 5 (BlobContainer.clockSkewMarginMinutes params)) in
  match sdk _ parse (service w) with
  | (inl e, s1) =>
      BlobContainer.generateSasToken sdk LocalTZA this now params w
      = (inl e, {| service := s1; calls := calls w ++ [Invoked parse] |})
  | (inr parsed, s1) =>
      let values :=
        if truthy (BlobContainer.blobName params)
        then BlobContainer.blobSASSignatureValues (BlobContainer.containerName params)
               (ToString (BlobContainer.blobName params)) parsed (fst dates) (snd dates)
        else BlobContainer.containerSASSignatureValues (BlobContainer.containerName params)
               parsed (fst dates) (snd dates) in
      let sign := generateBlobSASQueryParameters values cred in
      BlobContainer.generateSasToken sdk LocalTZA this now params w
      = (fst (sdk _ sign s1),
         {| service := snd (sdk _ sign s1);
            calls := calls w ++ [Invoked parse; Invoked sign] |})
  end.

(** The same for [StorageQueue.generateSasToken]. *)
Definition StorageQueue_signs_with {S} (sdk : SdkHandler S) (LocalTZA : Z -> bool -> Z)
    (this : Facade) (now : Z) (params : StorageQueue.SasParams)
    (cred : option Credential) (w : World S) : Prop :=
  let parse :=
    QueueSASPermissions_parse (permissions_or_r (StorageQueue.permissions params)) in
  let dates :=
    StorageQueue.sasDates LocalTZA now
      (default 60 (StorageQueue.expireTime params))
      (default 5 (StorageQueue.clockSkewMarginMinutes params)) in
  match sdk _ parse (service w) with
  | (inl e, s1) =>
      StorageQueue.generateSasToken sdk LocalTZA this now params w
      = (inl e, {| service := s1; calls := calls w ++ [Invoked parse] |})
  | (inr parsed, s1) =>
      let sign :=
        generateQueueSASQueryParameters
          (StorageQueue.queueSASSignatureValues (StorageQueue.queueName params)
             parsed (fst dates) (snd dates)) cred in
      StorageQueue.generateSasToken sdk LocalTZA this now params w
      = (fst (sdk _ sign s1),
         {| service := snd (sdk _ sign s1);
            calls := calls w ++ [Invoked parse; Invoked sign] |})
  end.

(** ** Vocabulary of the further properties *)

(** The lazy sequence that gives [items] and then goes on as [rest]. *)
Fixpoint prepend {A} (items : list A) (rest : Lazy A) : Lazy A :=
  match items with
  | [] => rest
  | a :: items' => Emit a (prepend items' rest)
  end.


(** Calls that are computed in the process: parsing a permission string
    and signing.  All others are requests to the storage service or
    constructions of SDK objects. *)
Definition is_local (i : Invocation) : bool :=
  match i with
  | Invoked call =>
      match call with
      | BlobSASPermissions_parse _
      | ContainerSASPermissions_parse _
      | QueueSASPermissions_parse _
      | generateBlobSASQueryParameters _ _
      | generateQueueSASQueryParameters _ _ => true
      | _ => false
      end
  end.

(** Two runs of a constructor that differ at most in the [sasToken]
    field of the instance. *)
Definition same_but_sasToken (r1 r2 : Thrown + Facade) : Prop :=
  match r1, r2 with
  | inr this1, inr this2 =>
      accountName this1 = accountName this2
      /\ accountKey this1 = accountKey this2
      /\ sharedKeyCredential this1 = sharedKeyCredential this2
      /\ client this1 = client this2
  | inl e1, inl e2 => e1 = e2
  | _, _ => False
  end.

(** Why a construction failed with [e], leaving the world [w'], for a
    facade whose service client is made by [new_client] at [host]:
    credentials are missing and nothing was called; or the credential
    constructor threw; or, after it returned, the client constructor
    threw; or, without a key, the client constructor for the endpoint
    with the token threw.  In the last three cases [e] is the
    [StorageError] for what was thrown. *)
Definition construction_failed {S} (sdk : SdkHandler S) (pkg : Package)
    (new_client : string -> option Credential -> SdkCall Client) (host : string)
    (params : Credentials) (w : World S) (e : Thrown) (w' : World S) : Prop :=
  let name := ToString (givenAccountName params) in
  let newCredential :=
    StorageSharedKeyCredential_new pkg name (ToString (givenAccountKey params)) in
  let wrapped underlying :=
    StorageError (num_or (statusCode underlying) 500) (message underlying) in
  (e = StorageError 500 "Missing authentication"
   /\ w' = w
   /\ (truthy (givenAccountName params) = false
       \/ (truthy (givenAccountKey params) = false
           /\ truthy (givenSasToken params) = false)))
  \/ (truthy (givenAccountName params) = true
      /\ truthy (givenAccountKey params) = true
      /\ exists underlying s1,
          sdk _ newCredential (service w) = (inl underlying, s1)
          /\ e = wrapped underlying
          /\ w' = {| service := s1; calls := calls w ++ [Invoked newCredential] |})
  \/ (truthy (givenAccountName params) = true
      /\ truthy (givenAccountKey params) = true
      /\ exists cred s1 underlying s2,
          let newClient := new_client ("https://" +:+ name +:+ host) (Some cred) in
          sdk _ newCredential (service w) = (inr cred, s1)
          /\ sdk _ newClient s1 = (inl underlying, s2)
          /\ e = wrapped underlying
          /\ w' = {| service := s2;
                     calls := calls w ++ [Invoked newCredential; Invoked newClient] |})
  \/ (truthy (givenAccountName params) = true
      /\ truthy (givenAccountKey params) = false
      /\ truthy (givenSasToken params) = true
      /\ exists underlying s1,
          let newClient :=
            new_client ("https://" +:+ name +:+ host +:+ "?"
                          +:+ ToString (givenSasToken params)) None in
          sdk _ newClient (service w) = (inl underlying, s1)
          /\ e = wrapped underlying
          /\ w' = {| service := s1; calls := calls w ++ [Invoked newClient] |}).

(** An SDK on which a download and the listings break off after their
    first item, and which answers like [Demo.sdk] otherwise. *)
Module Flaky.
Definition aborted : Thrown := SdkError None "aborted".
Definition busy : Thrown := SdkError (Some 503) "The server is busy.".

Definition sdk : SdkHandler unit :=
  fun R call s =>
    match call in SdkCall R return (Thrown + R) * unit with
    | BlockBlobClient_download _ _ _ _ _ =>
        (inr {| readableStreamBody :=
                  prepend [list_byte_of_string "x,y"] (Failed aborted) |}, s)
    | BlobServiceClient_listContainers _ =>
        (inr (prepend [{| containerItemName := "c1" |}] (Failed busy)), s)
    | ContainerClient_listBlobsFlat _ _ =>
        (inr (prepend [{| blobItemName := "a.csv"; blobContentLength := 8 |}]
                (Failed busy)), s)
    | BlobServiceClient_new endpoint cred =>
        (inl (SdkError None "Invalid URL"), s)
    | other => Demo.sdk _ other s
    end.
End Flaky.

(** * Properties *)

(** ** Date arithmetic *)

(** Replacing the minute field by "minute field plus [d]" moves a local
    time by [d] minutes: the fields of [t] recompose to [t]. *)
Lemma MakeDate_shift_minutes (t d : Z) :
  Date.MakeDate (Date.Day t)
    (Date.MakeTime (Date.HourFromTime t) (Date.MinFromTime t + d)
       (Date.SecFromTime t) (Date.msFromTime t))
  = t + d * Date.msPerMinute.
Proof.
  unfold Date.MakeDate, Date.MakeTime, Date.Day, Date.HourFromTime,
    Date.MinFromTime, Date.SecFromTime, Date.msFromTime,
    Date.msPerDay, Date.msPerHour, Date.msPerMinute, Date.msPerSecond.
  Z.div_mod_to_equations. lia.
Qed.

(** In a zone whose offset never changes, [setMinutes(getMinutes() + d)]
    is a shift by [d] minutes of the time value. *)
Lemma setMinutes_fixed_offset (LocalTZA : Z -> bool -> Z) (tza now d : Z) :
  (forall t isUTC, LocalTZA t isUTC = tza) ->
  Date.setMinutes LocalTZA (Some now)
    (m ← Date.getMinutes LocalTZA (Some now); Some (m + d))
  = Date.TimeClip (now + d * Date.msPerMinute).
Proof.
  intros Hfixed. cbn. unfold Date.UTC, Date.LocalTime. rewrite !Hfixed.
  rewrite MakeDate_shift_minutes. f_equal. lia.
Qed.

(** With a fixed offset both facades compute the window
    [now - clockSkewMarginMinutes, now + expireTime], in minutes. *)
Lemma sasDates_fixed_offset (LocalTZA : Z -> bool -> Z) (tza now expireTime skew : Z) :
  (forall t isUTC, LocalTZA t isUTC = tza) ->
  BlobContainer.sasDates LocalTZA now expireTime skew
  = (Date.TimeClip (now - skew * Date.msPerMinute),
     Date.TimeClip (now + expireTime * Date.msPerMinute))
  /\ StorageQueue.sasDates LocalTZA now expireTime skew
     = BlobContainer.sasDates LocalTZA now expireTime skew.
Proof.
  intros Hfixed. split; [|reflexivity].
  unfold BlobContainer.sasDates.
  rewrite (setMinutes_fixed_offset LocalTZA tza now expireTime Hfixed).
  replace (m ← Date.getMinutes LocalTZA (Some now); Some (m - skew))
    with (m ← Date.getMinutes LocalTZA (Some now); Some (m + - skew))
    by (cbn; f_equal; lia).
  rewrite (setMinutes_fixed_offset LocalTZA tza now (- skew) Hfixed).
  do 2 f_equal. lia.
Qed.

(** In range, and for positive numbers of minutes, the window of a
    fixed-offset zone starts strictly before [now] and ends strictly
    after it. *)
Lemma sasDates_fixed_offset_strict (LocalTZA : Z -> bool -> Z) (tza now expireTime skew : Z) :
  (forall t isUTC, LocalTZA t isUTC = tza) ->
  0 < skew -> 0 < expireTime ->
  Z.abs (now - skew * Date.msPerMinute) <= 8640000000000000 ->
  Z.abs (now + expireTime * Date.msPerMinute) <= 8640000000000000 ->
  exists startsOn expiresOn,
    BlobContainer.sasDates LocalTZA now expireTime skew = (Some startsOn, Some expiresOn)
    /\ startsOn = now - skew * Date.msPerMinute
    /\ expiresOn = now + expireTime * Date.msPerMinute
    /\ startsOn < now < expiresOn.
Proof.
  intros Hfixed Hskew Hexp Hlo Hhi.
  destruct (sasDates_fixed_offset LocalTZA tza now expireTime skew Hfixed) as [-> _].
  exists (now - skew * Date.msPerMinute), (now + expireTime * Date.msPerMinute).
  unfold Date.TimeClip.
  destruct (Z.ltb_spec 8640000000000000 (Z.abs (now - skew * Date.msPerMinute))); [lia|].
  destruct (Z.ltb_spec 8640000000000000 (Z.abs (now + expireTime * Date.msPerMinute))); [lia|].
  unfold Date.msPerMinute. repeat split; lia.
Qed.

(** C3 (code defect).  [generateSasToken] moves its dates with the
    local-time accessors [getMinutes]/[setMinutes].  In Europe/Amsterdam,
    at 2020-10-25T01:05:00Z (02:05, in the hour that the end of summer
    time repeats), a token asked for with [expireTime = 10] and the
    default margin of 5 minutes starts 65 minutes before now, not 5, and
    expires 50 minutes before now, not 10 minutes after it; these are the
    [startsOn] and [expiresOn] handed to the signing primitive, and the
    queue facade computes the same dates. *)
Theorem sas_window_wrong_in_repeated_hour :
  let now := 1603587900000 in
  let params :=
    {| BlobContainer.containerName := "c1"; BlobContainer.blobName := str "a.csv";
       BlobContainer.permissions := undefined; BlobContainer.expireTime := Some 10;
       BlobContainer.clockSkewMarginMinutes := None |} in
  BlobContainer.sasDates Demo.amsterdam now 10 5
  = (Some (now - 65 * Date.msPerMinute), Some (now - 50 * Date.msPerMinute))
  /\ StorageQueue.sasDates Demo.amsterdam now 10 5
     = (Some (now - 65 * Date.msPerMinute), Some (now - 50 * Date.msPerMinute))
  /\ BlobContainer.sasDates Demo.amsterdam now 10 5
     <> (Some (now - 5 * Date.msPerMinute), Some (now + 10 * Date.msPerMinute))
  /\ exists values,
      last (calls (snd (BlobContainer.generateSasToken Demo.sdk Demo.amsterdam
                          Demo.blobWithKey now params Demo.world)))
      = Some (Invoked (generateBlobSASQueryParameters values (Some Demo.keyCredential)))
      /\ values !! "startsOn" = Some (JsDate (Some (now - 65 * Date.msPerMinute)))
      /\ values !! "expiresOn" = Some (JsDate (Some (now - 50 * Date.msPerMinute))).
Proof.
  cbv zeta. split; [vm_compute; reflexivity|]. split; [vm_compute; reflexivity|].
  split; [vm_compute; intros H; discriminate H|].
  exists (BlobContainer.blobSASSignatureValues "c1" "a.csv" (Permissions "r")
            (Some (1603587900000 - 65 * Date.msPerMinute))
            (Some (1603587900000 - 50 * Date.msPerMinute))).
  repeat split; vm_compute; reflexivity.
Qed.

(** ** Construction *)

(** The instances of [Demo] are the ones the constructors build. *)
Example Demo_instances :
  fst (BlobContainer.constructor Demo.sdk Demo.sharedKey Demo.world) = inr Demo.blobWithKey
  /\ fst (BlobContainer.constructor Demo.sdk Demo.sasOnly Demo.world) = inr Demo.blobWithSas
  /\ fst (StorageQueue.constructor Demo.sdk Demo.sharedKey Demo.world) = inr Demo.queueWithKey.
Proof. repeat split. Qed.

Lemma truthy_default_null (v : JsStr) : truthy (default_param null v) = truthy v.
Proof. destruct v; reflexivity. Qed.

Ltac run_constructor H :=
  cbv beta delta [BlobContainer.constructor StorageQueue.constructor
                    StorageQueueEarlier.constructor try_catch bind invoke ret throw] in H;
  cbv zeta in H; rewrite ?truthy_default_null in H.

Ltac constructor_success H params sdk :=
  run_constructor H;
  destruct (truthy (givenAccountName params)) eqn:Hname; cbn [andb] in H;
  [ split; [reflexivity|];
    destruct (truthy (givenAccountKey params)) eqn:Hkey;
    [ destruct (sdk _ (StorageSharedKeyCredential_new _ _ _) _) as [[e|cred] s1] eqn:Hcred;
        [discriminate H|];
      cbn [service calls] in H;
      match type of H with
      | context [sdk _ ?c ?s] => destruct (sdk _ c s) as [[e|cl] s2] eqn:Hcl
      end; [discriminate H|];
      injection H as <- <-;
      eapply with_shared_key; cbn [client sharedKeyCredential calls]; eauto;
      now rewrite <- app_assoc
    | destruct (truthy (givenSasToken params)) eqn:Hsas; [|discriminate H];
      match type of H with
      | context [sdk _ ?c ?s] => destruct (sdk _ c s) as [[e|cl] s1] eqn:Hcl
      end; [discriminate H|];
      injection H as <- <-;
      eapply with_sas_token; cbn [client sharedKeyCredential calls]; eauto ]
  | discriminate H ].

Lemma BlobContainer_constructor_success {S} (sdk : SdkHandler S) params w this w' :
  BlobContainer.constructor sdk params w = (inr this, w') ->
  truthy (givenAccountName params) = true
  /\ Constructed sdk storage_blob BlobServiceClient_new ".blob.core.windows.net"
       params w this w'.
Proof. intros H. constructor_success H params sdk. Qed.

Lemma StorageQueue_constructor_success {S} (sdk : SdkHandler S) params w this w' :
  StorageQueue.constructor sdk params w = (inr this, w') ->
  truthy (givenAccountName params) = true
  /\ Constructed sdk storage_queue QueueServiceClient_new ".queue.core.windows.net"
       params w this w'.
Proof. intros H. constructor_success H params sdk. Qed.

Lemma StorageQueueEarlier_constructor_success {S} (sdk : SdkHandler S) params w this w' :
  StorageQueueEarlier.constructor sdk params w = (inr this, w') ->
  truthy (givenAccountName params) = true
  /\ Constructed sdk storage_queue QueueServiceClient_new ".queue.core.windows.net"
       params w this w'.
Proof. intros H. constructor_success H params sdk. Qed.

(** Without a key and without a token the [else] branch throws
    [StorageError(401, ...)] inside the [try]; the [catch] clause reads
    [error.statusCode], which a [StorageError] does not have, and throws
    a [StorageError] with code 500 in its place. *)
Lemma constructor_without_credentials {S} (sdk : SdkHandler S) params w :
  truthy (givenAccountKey params) = false ->
  truthy (givenSasToken params) = false ->
  BlobContainer.constructor sdk params w
  = (inl (StorageError 500 "Missing authentication"), w)
  /\ StorageQueue.constructor sdk params w
     = (inl (StorageError 500 "Missing authentication"), w)
  /\ StorageQueueEarlier.constructor sdk params w
     = (inl (StorageError 500 "Missing authentication"), w).
Proof.
  intros Hkey Hsas.
  cbv beta delta [BlobContainer.constructor StorageQueue.constructor
                    StorageQueueEarlier.constructor try_catch throw]; cbv zeta.
  rewrite !truthy_default_null, Hkey, Hsas, !andb_false_r.
  repeat split.
Qed.

(** C1 (code defect).  Constructing either facade from an account name
    alone fails, but the error that reaches the caller has code 500, not
    401: the [StorageError(401, "Missing authentication")] is caught by
    the constructor's own [catch] clause and replaced. *)
Theorem missing_authentication_has_code_500 :
  forall S (sdk : SdkHandler S) (w : World S),
    BlobContainer.constructor sdk Demo.nameOnly w
    = (inl (StorageError 500 "Missing authentication"), w)
    /\ StorageQueue.constructor sdk Demo.nameOnly w
       = (inl (StorageError 500 "Missing authentication"), w).
Proof.
  intros S sdk w.
  destruct (constructor_without_credentials sdk Demo.nameOnly w) as (Hb & Hq & _);
    [reflexivity | reflexivity |].
  split; assumption.
Qed.

(** C4 (counterexample).  A key and a token together are accepted: the
    first branch of the constructor is taken and an instance exists. *)
Lemma both_credentials_are_accepted :
  ~ (forall S (sdk : SdkHandler S) params w this w',
        BlobContainer.constructor sdk params w = (inr this, w') ->
        exactly_one_credential params).
Proof.
  intros Hclaim.
  destruct (BlobContainer.constructor Demo.sdk Demo.keyAndSas Demo.world)
    as [[e|this] w'] eqn:Hrun; [discriminate Hrun|].
  destruct (Hclaim _ _ _ _ _ _ Hrun) as [[_ Hsas]|[Hkey _]]; discriminate.
Qed.

Lemma ToString_default_null (v : JsStr) :
  truthy v = true -> ToString (default_param null v) = ToString v.
Proof. destruct v; [discriminate | reflexivity | reflexivity]. Qed.

Ltac constructed_from_run H params sdk :=
  run_constructor H;
  destruct (truthy (givenAccountName params)) eqn:Hname; cbn [andb] in H;
  [|discriminate H];
  split; [reflexivity|];
  destruct (truthy (givenAccountKey params)) eqn:Hkey;
  [ left; split; [reflexivity|];
    rewrite (ToString_default_null _ Hkey) in H;
    match type of H with
    | context [sdk ?R ?c ?s] => destruct (sdk R c s) as [[?|?] ?] eqn:Hcred
    end; [discriminate H|];
    cbn [service calls] in H;
    match type of H with
    | context [sdk ?R ?c ?s] => destruct (sdk R c s) as [[?|?] ?] eqn:Hcl
    end; [discriminate H|];
    injection H as <- <-; do 3 eexists; cbv zeta;
    cbn [client sharedKeyCredential];
    repeat split; first [reflexivity | eassumption | now rewrite <- app_assoc]
  | right; destruct (truthy (givenSasToken params)) eqn:Hsas; [|discriminate H];
    split; [reflexivity|]; split; [reflexivity|];
    rewrite (ToString_default_null _ Hsas) in H;
    match type of H with
    | context [sdk ?R ?c ?s] => destruct (sdk R c s) as [[?|?] ?] eqn:Hcl
    end; [discriminate H|];
    injection H as <- <-; eexists; cbv zeta;
    cbn [client sharedKeyCredential];
    repeat split; first [reflexivity | eassumption | now rewrite <- app_assoc] ].

(** C4 (amended).  An instance exists only if a non-empty account name
    and at least one of the two credentials were supplied; with neither
    key nor token the constructor throws, without calling the SDK.  The
    key has precedence: whenever a key is supplied, with or without a
    token, the SDK calls of a successful construction are exactly
    [new StorageSharedKeyCredential(accountName, accountKey)] and the
    client constructor for [https://{accountName}.{blob|queue}.core.windows.net]
    with that credential, and the credential is retained -- the token
    reaches no SDK call.  Only without a key is the token used: the one
    SDK call makes the client for that endpoint followed by [?] and the
    token, with no credential, and no signing credential is retained. *)
Theorem constructed_with_at_least_one_credential :
  forall S (sdk : SdkHandler S) params w,
    (forall this w',
        BlobContainer.constructor sdk params w = (inr this, w') ->
        constructed_from sdk storage_blob BlobServiceClient_new ".blob.core.windows.net"
          params w this w')
    /\ (forall this w',
           StorageQueue.constructor sdk params w = (inr this, w') ->
           constructed_from sdk storage_queue QueueServiceClient_new
             ".queue.core.windows.net" params w this w')
    /\ (truthy (givenAccountKey params) = false ->
        truthy (givenSasToken params) = false ->
        (exists e, BlobContainer.constructor sdk params w = (inl e, w))
        /\ (exists e, StorageQueue.constructor sdk params w = (inl e, w))).
Proof.
  intros S sdk params w. split; [|split].
  - intros this w' H. unfold constructed_from. cbv zeta.
    constructed_from_run H params sdk.
  - intros this w' H. unfold constructed_from. cbv zeta.
    constructed_from_run H params sdk.
  - intros Hkey Hsas.
    destruct (constructor_without_credentials sdk params w Hkey Hsas) as (Hb & Hq & _).
    split; eexists; eassumption.
Qed.

Lemma constructed_with_at_least_one_credential_witness :
  constructed_from Demo.sdk storage_blob BlobServiceClient_new ".blob.core.windows.net"
    Demo.keyAndSas Demo.world
    {| accountName := str "devstoreaccount1"; accountKey := str "a2V5";
       sasToken := str "sv=2019-07-07&sp=r&sig=c2ln";
       sharedKeyCredential := Some Demo.keyCredential;
       client := {| url := "https://devstoreaccount1.blob.core.windows.net";
                    credential := Some Demo.keyCredential |} |}
    (snd (BlobContainer.constructor Demo.sdk Demo.keyAndSas Demo.world)).
Proof.
  apply (proj1 (constructed_with_at_least_one_credential unit Demo.sdk
                  Demo.keyAndSas Demo.world)).
  vm_compute. reflexivity.
Defined.

(** ** SAS generation and the signing credential *)

Lemma signers_app (l1 l2 : list Invocation) :
  signers (l1 ++ l2) = (signers l1 ++ signers l2)%list.
Proof. apply flat_map_app. Qed.

Ltac run_generateSasToken :=
  cbv beta delta [BlobContainer.generateSasToken StorageQueue.generateSasToken
                    bind invoke]; cbv zeta.

Section Signing.
Context {S : Type} (sdk : SdkHandler S) (LocalTZA : Z -> bool -> Z).

Lemma BlobContainer_generateSasToken_unsigned this now params w :
  signing_needs_credential sdk ->
  sharedKeyCredential this = None ->
  exists e w', BlobContainer.generateSasToken sdk LocalTZA this now params w = (inl e, w').
Proof.
  intros Hsdk Hnone. run_generateSasToken. rewrite Hnone.
  destruct (BlobContainer.sasDates _ _ _ _) as [startDate expiryDate].
  destruct (truthy (BlobContainer.blobName params));
    match goal with
    | |- context [sdk SASPermissions ?c ?s] =>
        destruct (sdk SASPermissions c s) as [[e|parsed] s1]; [eauto|]
    end; cbn [service calls];
    match goal with
    | |- context [sdk string (generateBlobSASQueryParameters ?v None) ?s] =>
        destruct (proj1 (Hsdk v s)) as (e & s2 & ->); eauto
    end.
Qed.

Lemma StorageQueue_generateSasToken_unsigned this now params w :
  signing_needs_credential sdk ->
  sharedKeyCredential this = None ->
  exists e w', StorageQueue.generateSasToken sdk LocalTZA this now params w = (inl e, w').
Proof.
  intros Hsdk Hnone. run_generateSasToken. rewrite Hnone.
  destruct (StorageQueue.sasDates _ _ _ _) as [startDate expiryDate].
  match goal with
  | |- context [sdk SASPermissions ?c ?s] =>
      destruct (sdk SASPermissions c s) as [[e|parsed] s1]; [eauto|]
  end; cbn [service calls].
  match goal with
  | |- context [sdk string (generateQueueSASQueryParameters ?v None) ?s] =>
      destruct (proj2 (Hsdk v s)) as (e & s2 & ->); eauto
  end.
Qed.

(** Whatever the SDK answers, the only credential [generateSasToken]
    signs with is [this.sharedKeyCredential]: the permission string is
    parsed, and unless that throws, one signing call follows. *)
Lemma BlobContainer_generateSasToken_signer this now params w :
  let run := BlobContainer.generateSasToken sdk LocalTZA this now params w in
  signers (calls (snd run)) = (signers (calls w) ++ [sharedKeyCredential this])%list
  \/ (signers (calls (snd run)) = signers (calls w) /\ exists e, fst run = inl e).
Proof.
  cbv zeta. run_generateSasToken.
  destruct (BlobContainer.sasDates _ _ _ _) as [startDate expiryDate].
  destruct (truthy (BlobContainer.blobName params));
    match goal with
    | |- context [sdk SASPermissions ?c ?s] =>
        destruct (sdk SASPermissions c s) as [[e|parsed] s1]
    end; cbn [service calls fst snd];
    try (right; rewrite signers_app; cbn; rewrite app_nil_r; eauto; fail);
    match goal with
    | |- context [sdk string ?c ?s] => destruct (sdk string c s) as [r s2]
    end; cbn [calls snd]; left; rewrite !signers_app; cbn;
    now rewrite app_nil_r.
Qed.

Lemma StorageQueue_generateSasToken_signer this now params w :
  let run := StorageQueue.generateSasToken sdk LocalTZA this now params w in
  signers (calls (snd run)) = (signers (calls w) ++ [sharedKeyCredential this])%list
  \/ (signers (calls (snd run)) = signers (calls w) /\ exists e, fst run = inl e).
Proof.
  cbv zeta. run_generateSasToken.
  destruct (StorageQueue.sasDates _ _ _ _) as [startDate expiryDate].
  match goal with
  | |- context [sdk SASPermissions ?c ?s] =>
      destruct (sdk SASPermissions c s) as [[e|parsed] s1]
  end; cbn [service calls fst snd];
  try (right; rewrite signers_app; cbn; rewrite app_nil_r; eauto; fail);
  match goal with
  | |- context [sdk string ?c ?s] => destruct (sdk string c s) as [r s2]
  end; cbn [calls snd]; left; rewrite !signers_app; cbn;
  now rewrite app_nil_r.
Qed.
End Signing.

Lemma default_null_truthy (v : JsStr) : truthy v = true -> default_param null v = v.
Proof. destruct v; [discriminate | reflexivity | reflexivity]. Qed.

Lemma Demo_signing_needs_credential : signing_needs_credential Demo.sdk.
Proof. intros values s. split; do 2 eexists; reflexivity. Qed.

(** ** What [generateSasToken] hands to the SDK *)

(** [permissions = permissions || 'r'] *)
Lemma permissions_default (v : JsStr) :
  (if truthy v then ToString v else "r")
  = match v with
    | str s => if String.eqb s "" then "r" else s
    | _ => "r"
    end.
Proof. destruct v as [| |s]; cbn; try reflexivity. now destruct (String.eqb s ""). Qed.

Lemma permissions_or_default (v : JsStr) :
  (if truthy (default_param null v) then ToString (default_param null v) else "r")
  = (if truthy v then ToString v else "r").
Proof. destruct v; reflexivity. Qed.

(** The blob-scoped literal names the container and the blob; the
    container-scoped one has no [blobName]. *)
Lemma blobSASSignatureValues_scope c b p s e :
  BlobContainer.blobSASSignatureValues c b p s e !! "containerName" = Some (JsString c)
  /\ BlobContainer.blobSASSignatureValues c b p s e !! "blobName" = Some (JsString b)
  /\ BlobContainer.blobSASSignatureValues c b p s e !! "permissions" = Some (JsPermissions p).
Proof. repeat split; vm_compute; reflexivity. Qed.

Lemma containerSASSignatureValues_scope c p s e :
  BlobContainer.containerSASSignatureValues c p s e !! "containerName" = Some (JsString c)
  /\ BlobContainer.containerSASSignatureValues c p s e !! "blobName" = None
  /\ BlobContainer.containerSASSignatureValues c p s e !! "permissions"
     = Some (JsPermissions p).
Proof. repeat split; vm_compute; reflexivity. Qed.

(** The queue literal has no property [queueName]. *)
Lemma queueSASSignatureValues_keys q p s e :
  StorageQueue.queueSASSignatureValues q p s e !! "queueName" = None
  /\ StorageQueue.queueSASSignatureValues q p s e !! "containerName" = Some (JsString q).
Proof. repeat split; vm_compute; reflexivity. Qed.

(** Calls of [BlobContainer.generateSasToken]: the permission string,
    ['r'] by default, is parsed as blob permissions when a blob name is
    given and as container permissions otherwise, and the matching
    literal is signed. *)
Lemma BlobContainer_generateSasToken_calls {S} (sdk : SdkHandler S) LocalTZA
    this now params w :
  let perms := if truthy (BlobContainer.permissions params)
               then ToString (BlobContainer.permissions params) else "r" in
  let parse := if truthy (BlobContainer.blobName params)
               then BlobSASPermissions_parse perms
               else ContainerSASPermissions_parse perms in
  let dates := BlobContainer.sasDates LocalTZA now
                 (default 60 (BlobContainer.expireTime params))
                 (default 5 (BlobContainer.clockSkewMarginMinutes params)) in
  let run := BlobContainer.generateSasToken sdk LocalTZA this now params w in
  match sdk _ parse (service w) with
  | (inl e, s1) =>
      run = (inl e, {| service := s1; calls := calls w ++ [Invoked parse] |})
  | (inr parsed, s1) =>
      let values :=
        if truthy (BlobContainer.blobName params)
        then BlobContainer.blobSASSignatureValues (BlobContainer.containerName params)
               (ToString (BlobContainer.blobName params)) parsed (fst dates) (snd dates)
        else BlobContainer.containerSASSignatureValues (BlobContainer.containerName params)
               parsed (fst dates) (snd dates) in
      let sign := generateBlobSASQueryParameters values (sharedKeyCredential this) in
      run = (fst (sdk _ sign s1),
             {| service := snd (sdk _ sign s1);
                calls := calls w ++ [Invoked parse; Invoked sign] |})
  end.
Proof.
  cbv zeta. run_generateSasToken. rewrite permissions_or_default.
  destruct (BlobContainer.sasDates _ _ _ _) as [startDate expiryDate].
  destruct (truthy (BlobContainer.blobName params));
    match goal with
    | |- context [sdk SASPermissions ?c ?s] =>
        destruct (sdk SASPermissions c s) as [[e|parsed] s1]
    end; cbn [service calls fst snd]; try reflexivity;
    match goal with
    | |- context [sdk string ?c ?s] => destruct (sdk string c s) as [r s2]
    end; cbn [fst snd]; now rewrite <- app_assoc.
Qed.

Lemma StorageQueue_generateSasToken_calls {S} (sdk : SdkHandler S) LocalTZA
    this now params w :
  let perms := if truthy (StorageQueue.permissions params)
               then ToString (StorageQueue.permissions params) else "r" in
  let parse := QueueSASPermissions_parse perms in
  let dates := StorageQueue.sasDates LocalTZA now
                 (default 60 (StorageQueue.expireTime params))
                 (default 5 (StorageQueue.clockSkewMarginMinutes params)) in
  let run := StorageQueue.generateSasToken sdk LocalTZA this now params w in
  match sdk _ parse (service w) with
  | (inl e, s1) =>
      run = (inl e, {| service := s1; calls := calls w ++ [Invoked parse] |})
  | (inr parsed, s1) =>
      let values :=
        StorageQueue.queueSASSignatureValues (StorageQueue.queueName params)
          parsed (fst dates) (snd dates) in
      let sign := generateQueueSASQueryParameters values (sharedKeyCredential this) in
      run = (fst (sdk _ sign s1),
             {| service := snd (sdk _ sign s1);
                calls := calls w ++ [Invoked parse; Invoked sign] |})
  end.
Proof.
  cbv zeta. run_generateSasToken. rewrite permissions_or_default.
  destruct (StorageQueue.sasDates _ _ _ _) as [startDate expiryDate].
  match goal with
  | |- context [sdk SASPermissions ?c ?s] =>
      destruct (sdk SASPermissions c s) as [[e|parsed] s1]
  end; cbn [service calls fst snd]; try reflexivity.
  match goal with
  | |- context [sdk string ?c ?s] => destruct (sdk string c s) as [r s2]
  end; cbn [fst snd]; now rewrite <- app_assoc.
Qed.

(** C5.  On an SDK whose signing primitives reject a missing credential:
    an instance constructed without a key (so, from a token) retains no
    signing credential and every [generateSasToken] on it throws; an
    instance constructed with a key retains the credential that
    [new StorageSharedKeyCredential(accountName, accountKey)] returned
    during construction, and every [generateSasToken] on it parses the
    permissions and, unless the parsing throws, calls the signing
    primitive with exactly that credential and returns (or throws) what
    that call returns (or throws).  This holds for [BlobContainer] and
    for [StorageQueue]. *)
Theorem sas_generation_follows_credential_mode :
  forall S (sdk : SdkHandler S) (LocalTZA : Z -> bool -> Z) params w this w',
    signing_needs_credential sdk ->
    (BlobContainer.constructor sdk params w = (inr this, w') ->
     if truthy (givenAccountKey params)
     then exists cred s1,
         sdk _ (StorageSharedKeyCredential_new storage_blob
                  (ToString (givenAccountName params))
                  (ToString (givenAccountKey params))) (service w) = (inr cred, s1)
         /\ sharedKeyCredential this = Some cred
         /\ forall now p w1,
             BlobContainer_signs_with sdk LocalTZA this now p (Some cred) w1
     else truthy (givenSasToken params) = true
          /\ sharedKeyCredential this = None
          /\ forall now p w1,
              BlobContainer_signs_with sdk LocalTZA this now p None w1
              /\ exists e w2,
                  BlobContainer.generateSasToken sdk LocalTZA this now p w1 = (inl e, w2))
    /\ (StorageQueue.constructor sdk params w = (inr this, w') ->
        if truthy (givenAccountKey params)
        then exists cred s1,
            sdk _ (StorageSharedKeyCredential_new storage_queue
                     (ToString (givenAccountName params))
                     (ToString (givenAccountKey params))) (service w) = (inr cred, s1)
            /\ sharedKeyCredential this = Some cred
            /\ forall now p w1,
                StorageQueue_signs_with sdk LocalTZA this now p (Some cred) w1
        else truthy (givenSasToken params) = true
             /\ sharedKeyCredential this = None
             /\ forall now p w1,
                 StorageQueue_signs_with sdk LocalTZA this now p None w1
                 /\ exists e w2,
                     StorageQueue.generateSasToken sdk LocalTZA this now p w1
                     = (inl e, w2)).
Proof.
  intros S sdk LocalTZA params w this w' Hsdk.
  assert (Hblob : forall now p w1,
             BlobContainer_signs_with sdk LocalTZA this now p (sharedKeyCredential this) w1).
  { intros now p w1. unfold BlobContainer_signs_with, permissions_or_r.
    rewrite <- permissions_default.
    exact (BlobContainer_generateSasToken_calls sdk LocalTZA this now p w1). }
  assert (Hqueue : forall now p w1,
             StorageQueue_signs_with sdk LocalTZA this now p (sharedKeyCredential this) w1).
  { intros now p w1. unfold StorageQueue_signs_with, permissions_or_r.
    rewrite <- permissions_default.
    exact (StorageQueue_generateSasToken_calls sdk LocalTZA this now p w1). }
  split; intros Hrun.
  - apply BlobContainer_constructor_success in Hrun as [_ Hmode].
    destruct Hmode; rewrite Hkey.
    + rewrite (default_null_truthy _ Hkey) in Hcred.
      exists cred, s1. repeat split; [exact Hcred | exact Hsigning |].
      intros now p w1. rewrite <- Hsigning. apply Hblob.
    + repeat split; [exact Hsas | exact Hsigning | |].
      * rewrite <- Hsigning. apply Hblob.
      * now apply BlobContainer_generateSasToken_unsigned.
  - apply StorageQueue_constructor_success in Hrun as [_ Hmode].
    destruct Hmode; rewrite Hkey.
    + rewrite (default_null_truthy _ Hkey) in Hcred.
      exists cred, s1. repeat split; [exact Hcred | exact Hsigning |].
      intros now p w1. rewrite <- Hsigning. apply Hqueue.
    + repeat split; [exact Hsas | exact Hsigning | |].
      * rewrite <- Hsigning. apply Hqueue.
      * now apply StorageQueue_generateSasToken_unsigned.
Qed.

Lemma sas_generation_follows_credential_mode_witness :
  (exists e w2,
      BlobContainer.generateSasToken Demo.sdk Demo.utc Demo.blobWithSas 1590000000000
        {| BlobContainer.containerName := "c1"; BlobContainer.blobName := str "a.csv";
           BlobContainer.permissions := undefined; BlobContainer.expireTime := Some 10;
           BlobContainer.clockSkewMarginMinutes := None |}
        Demo.world = (inl e, w2))
  /\ (exists cred s1,
         Demo.sdk _ (StorageSharedKeyCredential_new storage_blob "devstoreaccount1" "a2V5") tt
         = (inr cred, s1)
         /\ sharedKeyCredential Demo.blobWithKey = Some cred
         /\ BlobContainer_signs_with Demo.sdk Demo.utc Demo.blobWithKey 1590000000000
              {| BlobContainer.containerName := "c1";
                 BlobContainer.blobName := str "a.csv";
                 BlobContainer.permissions := undefined;
                 BlobContainer.expireTime := Some 10;
                 BlobContainer.clockSkewMarginMinutes := None |}
              (Some cred) Demo.world).
Proof.
  split.
  - refine (proj2 (proj2 (proj2 (proj1
      (sas_generation_follows_credential_mode unit Demo.sdk Demo.utc Demo.sasOnly
         Demo.world Demo.blobWithSas
         (snd (BlobContainer.constructor Demo.sdk Demo.sasOnly Demo.world))
         Demo_signing_needs_credential) _)) _ _ _)).
    vm_compute. reflexivity.
  - destruct (proj1
      (sas_generation_follows_credential_mode unit Demo.sdk Demo.utc Demo.sharedKey
         Demo.world Demo.blobWithKey
         (snd (BlobContainer.constructor Demo.sdk Demo.sharedKey Demo.world))
         Demo_signing_needs_credential) eq_refl) as (cred & s1 & Hcred & Hkept & Hsigns).
    exists cred, s1. repeat split; [exact Hcred | exact Hkept | apply Hsigns].
Defined.

(** C6 (code defect).  [StorageQueue.generateSasToken({ queueName:
    'orders' })] parses the default permissions ['r'] as queue permissions
    and signs, but the object it passes to
    [generateQueueSASQueryParameters] stores the queue's name under
    [containerName]: the property [queueName], from which the signing
    primitive takes the resource, is absent, so the token is not scoped
    to the queue. *)
Theorem queue_sas_values_lack_queueName :
  let params :=
    {| StorageQueue.queueName := "orders"; StorageQueue.permissions := undefined;
       StorageQueue.expireTime := None; StorageQueue.clockSkewMarginMinutes := None |} in
  let run :=
    StorageQueue.generateSasToken Demo.sdk Demo.utc Demo.queueWithKey
      1590000000000 params Demo.world in
  exists values,
    calls (snd run)
    = [ Invoked (QueueSASPermissions_parse "r");
        Invoked (generateQueueSASQueryParameters values (Some Demo.keyCredential)) ]
    /\ values !! "queueName" = None
    /\ values !! "containerName" = Some (JsString "orders").
Proof.
  cbv zeta.
  exists (StorageQueue.queueSASSignatureValues "orders" (Permissions "r")
            (Some (1590000000000 - 5 * Date.msPerMinute))
            (Some (1590000000000 + 60 * Date.msPerMinute))).
  split; [vm_compute; reflexivity|].
  apply queueSASSignatureValues_keys.
Qed.

(** ** Draining streams and iterators *)

Lemma completes_emits {A} (l : Lazy A) :
  failure_of l = None -> l = emits (items_of l).
Proof.
  induction l as [|e|a rest IH]; cbn; intros H;
    [reflexivity | discriminate | now rewrite <- IH].
Qed.

Lemma for_await_spec {A B} (f : A -> B) (iter : Lazy A) (acc : list B) :
  for_await f acc iter
  = match failure_of iter with
    | Some e => inl e
    | None => inr (acc ++ map f (items_of iter))%list
    end.
Proof.
  revert acc. induction iter as [|e|a rest IH]; intros acc; cbn.
  - now rewrite app_nil_r.
  - reflexivity.
  - rewrite IH. destruct (failure_of rest); [reflexivity|].
    now rewrite <- app_assoc.
Qed.

Lemma streamToString_spec (toStr : Buffer -> string) (stream : Lazy Buffer) :
  streamToString toStr stream
  = match failure_of stream with
    | Some e => inl e
    | None => inr (join (map toStr (items_of stream)))
    end.
Proof.
  unfold streamToString.
  enough (Hgen : forall chunks,
             streamToString_from toStr chunks stream
             = match failure_of stream with
               | Some e => inl e
               | None => inr (join (chunks ++ map toStr (items_of stream)))
               end) by apply Hgen.
  induction stream as [|e|data rest IH]; intros chunks; cbn.
  - now rewrite app_nil_r.
  - reflexivity.
  - rewrite IH. destruct (failure_of rest); [reflexivity|].
    now rewrite <- app_assoc.
Qed.

(** ** The error contract *)

Lemma as_StorageError_reported (error : Thrown) : as_StorageError error = reported error.
Proof.
  unfold as_StorageError, reported, reported_code, num_or.
  destruct (statusCode error) as [c|]; [|reflexivity].
  destruct (Z.eqb_spec c 0); destruct (decide (c = 0)); congruence.
Qed.

(** A method that [wraps] a call returns, or fails with a [StorageError]. *)
Lemma wraps_outcome {S R A} (sdk : SdkHandler S) (call : SdkCall R) finish (op : Eff S A) w :
  wraps sdk call finish op ->
  (exists a, fst (op w) = inr a)
  \/ (exists underlying, fst (op w) = inl (reported underlying)).
Proof.
  intros H. rewrite H. cbn [fst].
  destruct (fst (sdk R call (service w))) as [u|r]; [eauto|].
  destruct (finish r); eauto.
Qed.

Ltac prove_wraps sdk :=
  intros w;
  cbv beta delta [try_catch bind invoke ret throw settle]; cbv zeta;
  match goal with
  | |- context [sdk ?R ?c (service w)] =>
      destruct (sdk R c (service w)) as [[u|r] s1]
  end; cbn [fst snd];
  rewrite ?as_StorageError_reported; try reflexivity;
  match goal with
  | |- context [match ?f with inl _ => _ | inr _ => _ end] => destruct f
  end; rewrite ?as_StorageError_reported; reflexivity.

Section Contract.
Context {S : Type} (sdk : SdkHandler S) (toStr : Buffer -> string) (this : Facade).


Lemma listContainers_wraps :
  wraps sdk (BlobServiceClient_listContainers (client this))
    (for_await containerItemName [])
    (BlobContainer.listContainers sdk this).
Proof. unfold BlobContainer.listContainers. prove_wraps sdk. Qed.

Lemma createBlob_wraps containerName blobName content :
  wraps sdk
    (BlockBlobClient_upload (client this) containerName blobName content
       (Buffer_byteLength content))
    (fun response => inr (requestId response))
    (BlobContainer.createBlob sdk this containerName blobName content).
Proof. unfold BlobContainer.createBlob. prove_wraps sdk. Qed.

Lemma listBlobs_wraps containerName :
  wraps sdk (ContainerClient_listBlobsFlat (client this) containerName)
    (for_await (fun blob => blob) [])
    (BlobContainer.listBlobs sdk this containerName).
Proof. unfold BlobContainer.listBlobs. prove_wraps sdk. Qed.

Lemma getBlobContent_wraps containerName blobName :
  wraps sdk (BlockBlobClient_download (client this) containerName blobName 0 None)
    (fun response => streamToString toStr (readableStreamBody response))
    (BlobContainer.getBlobContent sdk toStr this containerName blobName).
Proof. unfold BlobContainer.getBlobContent. prove_wraps sdk. Qed.




Lemma list_wraps prefix :
  wraps sdk
    (QueueServiceClient_listQueues (client this)
       (Some (StorageQueue.listOptions (default_param null prefix))))
    (for_await queueItemName [])
    (StorageQueue.list sdk this prefix).
Proof. unfold StorageQueue.list. prove_wraps sdk. Qed.


Lemma sendMessage_wraps queueName message timeToLive visibilityTimeout :
  wraps sdk
    (QueueClient_sendMessage (client this) queueName message
       (Some (StorageQueue.sendOptions timeToLive visibilityTimeout)))
    (fun response => inr (sentMessageId response, sentRequestId response))
    (StorageQueue.sendMessage sdk this queueName message timeToLive visibilityTimeout).
Proof. unfold StorageQueue.sendMessage. prove_wraps sdk. Qed.


(** The first revision of the queue facade. *)
Lemma earlier_create_wraps queueName :
  wraps sdk (QueueClient_create (client this) queueName)
    (fun response => inr (requestId response))
    (StorageQueueEarlier.create sdk this queueName).
Proof. unfold StorageQueueEarlier.create. prove_wraps sdk. Qed.

Lemma earlier_list_wraps :
  wraps sdk (QueueServiceClient_listQueues (client this) None)
    (for_await queueItemName [])
    (StorageQueueEarlier.list sdk this).
Proof. unfold StorageQueueEarlier.list. prove_wraps sdk. Qed.

Lemma earlier_delete_wraps queueName :
  wraps sdk (QueueClient_delete (client this) queueName)
    (fun response => inr (requestId response))
    (StorageQueueEarlier.delete sdk this queueName).
Proof. unfold StorageQueueEarlier.delete. prove_wraps sdk. Qed.

Lemma earlier_sendMessage_wraps queueName message :
  wraps sdk (QueueClient_sendMessage (client this) queueName message None)
    (fun response => inr (sentMessageId response, sentRequestId response))
    (StorageQueueEarlier.sendMessage sdk this queueName message).
Proof. unfold StorageQueueEarlier.sendMessage. prove_wraps sdk. Qed.

Lemma earlier_peekMessages_wraps queueName :
  wraps sdk (QueueClient_peekMessages (client this) queueName)
    (fun response => inr response)
    (StorageQueueEarlier.peekMessages sdk this queueName).
Proof. unfold StorageQueueEarlier.peekMessages. prove_wraps sdk. Qed.
End Contract.



(** ** Blob content *)

(** C7.  When [getBlobContent] succeeds it has made exactly one call,
    [download(0)] -- offset 0, no count -- on the named blob; the stream
    of the response ran to its [end], and the content returned is the
    concatenation, in order, of the text of every chunk of that stream. *)
Theorem getBlobContent_concatenates_whole_stream :
  forall S (sdk : SdkHandler S) (toStr : Buffer -> string) this
         containerName blobName w content w',
    BlobContainer.getBlobContent sdk toStr this containerName blobName w
    = (inr content, w') ->
    let download :=
      BlockBlobClient_download (client this) containerName blobName 0 None in
    exists chunks s1,
      sdk _ download (service w) = (inr {| readableStreamBody := emits chunks |}, s1)
      /\ w' = {| service := s1; calls := calls w ++ [Invoked download] |}
      /\ content = join (map toStr chunks).
Proof.
  intros S sdk toStr this containerName blobName w content w' Hrun download.
  rewrite (getBlobContent_wraps sdk toStr this containerName blobName w) in Hrun.
  fold download in Hrun.
  destruct (sdk _ download (service w)) as [[u|[stream]] s1]; cbn [fst snd] in Hrun;
    [discriminate Hrun|].
  cbn [readableStreamBody] in Hrun. rewrite streamToString_spec in Hrun.
  destruct (failure_of stream) eqn:Hends; [discriminate Hrun|].
  injection Hrun as <- <-.
  exists (items_of stream), s1. repeat split.
  now rewrite <- completes_emits.
Qed.

Lemma getBlobContent_concatenates_whole_stream_witness :
  exists chunks s1,
    Demo.sdk _ (BlockBlobClient_download (client Demo.blobWithKey) "c1" "a.csv" 0 None) tt
    = (inr {| readableStreamBody := emits chunks |}, s1)
    /\ snd (BlobContainer.getBlobContent Demo.sdk string_of_list_byte Demo.blobWithKey
              "c1" "a.csv" Demo.world)
       = {| service := s1;
            calls := [Invoked (BlockBlobClient_download (client Demo.blobWithKey)
                                 "c1" "a.csv" 0 None)] |}
    /\ "x,y1,2" = join (map string_of_list_byte chunks).
Proof.
  apply (getBlobContent_concatenates_whole_stream unit Demo.sdk string_of_list_byte
           Demo.blobWithKey "c1" "a.csv" Demo.world "x,y1,2").
  vm_compute. reflexivity.
Defined.

(** ** Uploads *)

(** C8.  [createBlob] has no length parameter: the one call it makes is an
    upload of [content] with [Buffer.byteLength(content)] as its length,
    and what it returns is the [requestId] of the upload's response (a
    failure of the upload is reported as a [StorageError]). *)
Theorem createBlob_uploads_byte_length :
  forall S (sdk : SdkHandler S) this containerName blobName content w,
    let upload :=
      BlockBlobClient_upload (client this) containerName blobName content
        (Buffer_byteLength content) in
    BlobContainer.createBlob sdk this containerName blobName content w
    = (match fst (sdk _ upload (service w)) with
       | inr uploadBlobResponse => inr (requestId uploadBlobResponse)
       | inl error => inl (as_StorageError error)
       end,
       {| service := snd (sdk _ upload (service w));
          calls := calls w ++ [Invoked upload] |}).
Proof.
  intros S sdk this containerName blobName content w upload.
  rewrite (createBlob_wraps sdk this containerName blobName content w).
  fold upload. destruct (fst (sdk _ upload (service w))); [|reflexivity].
  now rewrite as_StorageError_reported.
Qed.

(** The byte length is that of the UTF-8 encoding, which for text outside
    ASCII is not the number of UTF-16 code units. *)
Lemma utf8_length_ascii (units : list Z) :
  Forall (fun u => 0 <= u < 0x80) units -> utf8_length units = Z.of_nat (length units).
Proof.
  induction 1 as [|u units Hu _ IH]; [reflexivity|].
  cbn [utf8_length length]. destruct (Z.ltb_spec u 128); lia.
Qed.

Example byteLength_of_accented_text :
  Buffer_byteLength (Text [0x63; 0x61; 0x66; 0xE9]) = 5
  /\ Buffer_byteLength (Text [0xD83D; 0xDE00]) = 4.
Proof. split; reflexivity. Qed.

(** ** Listing queues *)

Lemma listOptions_spec (prefix : JsStr) :
  StorageQueue.listOptions (default_param null prefix)
  = match prefix with
    | str p => if String.eqb p "" then ∅ else {[ "prefix" := JsString p ]}
    | _ => ∅
    end.
Proof.
  destruct prefix as [| |p]; try reflexivity.
  unfold StorageQueue.listOptions. cbn.
  destruct (String.eqb p ""); cbn; [reflexivity | apply insert_empty].
Qed.

(** C9.  [StorageQueue.list] makes one [listQueues] call.  Its options
    are [{ prefix }] when the prefix is a non-empty string and [{}]
    otherwise (absent, [null], or empty); when the enumeration
    completes, the result is the list of the names of all its items, in
    order, and when it throws, the failure is reported as a
    [StorageError]. *)
Theorem list_passes_only_nonempty_prefix :
  forall S (sdk : SdkHandler S) this prefix w,
    let options : gmap string JsVal :=
      match prefix with
      | str p => if String.eqb p "" then ∅ else {[ "prefix" := JsString p ]}
      | _ => ∅
      end in
    let listQueues := QueueServiceClient_listQueues (client this) (Some options) in
    calls (snd (StorageQueue.list sdk this prefix w)) = (calls w ++ [Invoked listQueues])%list
    /\ forall iter s1,
        sdk _ listQueues (service w) = (inr iter, s1) ->
        fst (StorageQueue.list sdk this prefix w)
        = match failure_of iter with
          | Some error => inl (as_StorageError error)
          | None => inr (map queueItemName (items_of iter))
          end.
Proof.
  intros S sdk this prefix w options listQueues.
  rewrite (list_wraps sdk this prefix w), listOptions_spec.
  fold options. fold listQueues. cbn [fst snd calls]. split; [reflexivity|].
  intros iter s1 ->. cbn [fst]. rewrite for_await_spec.
  destruct (failure_of iter); [now rewrite as_StorageError_reported | reflexivity].
Qed.

Lemma list_passes_only_nonempty_prefix_witness :
  fst (StorageQueue.list Demo.sdk Demo.queueWithKey (str "test") Demo.world)
  = inr ["test1"; "test2"].
Proof.
  refine (proj2
    (list_passes_only_nonempty_prefix unit Demo.sdk Demo.queueWithKey (str "test")
       Demo.world)
    (emits [ {| queueItemName := "test1" |}; {| queueItemName := "test2" |} ]) tt _).
  vm_compute. reflexivity.
Defined.

(** ** The two revisions of the queue facade *)

Lemma Demo_absent_options_default : absent_options_default Demo.sdk.
Proof. split; intros; reflexivity. Qed.

(** C10.  On an SDK that reads absent options as [{}], the two revisions
    of [StorageQueue] agree on what they share: the constructors,
    [create], [delete] and [peekMessages] are equal as computations
    (same result or [StorageError], same SDK calls, same service state);
    [list] of the second revision without a prefix, and [sendMessage]
    without [timeToLive] and [visibilityTimeout], give the result and the
    service state of the first revision's. *)
Theorem StorageQueue_revisions_agree :
  forall S (sdk : SdkHandler S) this,
    absent_options_default sdk ->
    (forall params w,
        StorageQueue.constructor sdk params w = StorageQueueEarlier.constructor sdk params w)
    /\ (forall queueName w,
           StorageQueue.create sdk this queueName w
           = StorageQueueEarlier.create sdk this queueName w)
    /\ (forall queueName w,
           StorageQueue.delete sdk this queueName w
           = StorageQueueEarlier.delete sdk this queueName w)
    /\ (forall queueName w,
           StorageQueue.peekMessages sdk this queueName w
           = StorageQueueEarlier.peekMessages sdk this queueName w)
    /\ (forall prefix w,
           truthy prefix = false ->
           fst (StorageQueue.list sdk this prefix w) = fst (StorageQueueEarlier.list sdk this w)
           /\ service (snd (StorageQueue.list sdk this prefix w))
              = service (snd (StorageQueueEarlier.list sdk this w)))
    /\ (forall queueName message timeToLive visibilityTimeout w,
           StorageQueue.num_truthy timeToLive = false ->
           StorageQueue.num_truthy visibilityTimeout = false ->
           fst (StorageQueue.sendMessage sdk this queueName message
                  timeToLive visibilityTimeout w)
           = fst (StorageQueueEarlier.sendMessage sdk this queueName message w)
           /\ service (snd (StorageQueue.sendMessage sdk this queueName message
                              timeToLive visibilityTimeout w))
              = service (snd (StorageQueueEarlier.sendMessage sdk this queueName message w))).
Proof.
  intros S sdk this [Hlist Hsend].
  repeat match goal with |- _ /\ _ => split end; try reflexivity.
  - intros prefix w Hprefix.
    rewrite (list_wraps sdk this prefix w), (earlier_list_wraps sdk this w).
    unfold StorageQueue.listOptions. rewrite truthy_default_null, Hprefix, Hlist.
    split; reflexivity.
  - intros queueName message timeToLive visibilityTimeout w Httl Hvt.
    rewrite (sendMessage_wraps sdk this queueName message timeToLive visibilityTimeout w),
      (earlier_sendMessage_wraps sdk this queueName message w).
    unfold StorageQueue.sendOptions. rewrite Httl, Hvt, Hsend.
    split; reflexivity.
Qed.

Lemma StorageQueue_revisions_agree_witness :
  fst (StorageQueue.list Demo.sdk Demo.queueWithKey undefined Demo.world)
  = fst (StorageQueueEarlier.list Demo.sdk Demo.queueWithKey Demo.world)
  /\ fst (StorageQueue.sendMessage Demo.sdk Demo.queueWithKey "orders" "hello"
            None None Demo.world)
     = fst (StorageQueueEarlier.sendMessage Demo.sdk Demo.queueWithKey "orders" "hello"
              Demo.world).
Proof.
  pose (agree := StorageQueue_revisions_agree unit Demo.sdk Demo.queueWithKey
                   Demo_absent_options_default).
  split.
  - exact (proj1 (proj1 (proj2 (proj2 (proj2 (proj2 agree))))
             undefined Demo.world eq_refl)).
  - exact (proj1 (proj2 (proj2 (proj2 (proj2 (proj2 agree))))
             "orders" "hello" None None Demo.world eq_refl eq_refl)).
Defined.

(** * Further properties *)

(** ** util.js *)

Lemma failure_of_prepend {A} (items : list A) (rest : Lazy A) :
  failure_of (prepend items rest) = failure_of rest.
Proof. induction items as [|a items IH]; [reflexivity | exact IH]. Qed.

Lemma emits_prepend {A} (items : list A) : emits items = prepend items Ended.
Proof. induction items as [|a items IH]; cbn; [reflexivity | now rewrite IH]. Qed.

Lemma items_of_prepend_stop {A} (items : list A) (rest : Lazy A) :
  items_of rest = [] -> items_of (prepend items rest) = items.
Proof.
  intros Hrest. induction items as [|a items IH]; cbn; [exact Hrest | now rewrite IH].
Qed.

(** X1.  [streamToString] is all or nothing: a stream that ends after
    its chunks resolves to the texts of the chunks, joined in order; a
    stream that emits [error] after any number of chunks rejects with
    that error, and what was read before it is dropped. *)
Theorem streamToString_all_or_nothing :
  forall (toStr : Buffer -> string) (chunks : list Buffer) (e : Thrown),
    streamToString toStr (prepend chunks Ended) = inr (join (map toStr chunks))
    /\ streamToString toStr (prepend chunks (Failed e)) = inl e.
Proof.
  intros toStr chunks e. rewrite !streamToString_spec, !failure_of_prepend.
  cbn [failure_of]. split; [|reflexivity].
  now rewrite items_of_prepend_stop.
Qed.

(** ** blobcontainer.js: content and listings *)

(** X3.  When the download succeeds but its stream breaks off,
    [getBlobContent] returns no partial content: it fails with the
    [StorageError] of the stream's error. *)
Theorem getBlobContent_broken_stream :
  forall S (sdk : SdkHandler S) (toStr : Buffer -> string) this
         containerName blobName w response s1 error,
    sdk _ (BlockBlobClient_download (client this) containerName blobName 0 None) (service w)
    = (inr response, s1) ->
    failure_of (readableStreamBody response) = Some error ->
    fst (BlobContainer.getBlobContent sdk toStr this containerName blobName w)
    = inl (StorageError (num_or (statusCode error) 500) (message error)).
Proof.
  intros S sdk toStr this containerName blobName w response s1 error Hsdk Hfail.
  rewrite (getBlobContent_wraps sdk toStr this containerName blobName w), Hsdk.
  cbn [fst]. rewrite streamToString_spec, Hfail.
  now rewrite <- as_StorageError_reported.
Qed.

Lemma getBlobContent_broken_stream_witness :
  fst (BlobContainer.getBlobContent Flaky.sdk string_of_list_byte Demo.blobWithKey
         "c1" "a.csv" Demo.world)
  = inl (StorageError 500 "aborted").
Proof.
  apply (getBlobContent_broken_stream unit Flaky.sdk string_of_list_byte
           Demo.blobWithKey "c1" "a.csv" Demo.world
           {| readableStreamBody :=
                prepend [list_byte_of_string "x,y"] (Failed Flaky.aborted) |}
           tt Flaky.aborted).
  - reflexivity.
  - reflexivity.
Defined.

(** X4.  [listContainers] and [listBlobs] return everything or nothing:
    when the enumeration completes, the names (for blobs, the items
    themselves) of all its items, in order and as many; when it breaks
    off, the [StorageError] of its failure, and the items gathered so
    far are dropped. *)
Theorem blob_listings_are_all_or_nothing :
  forall S (sdk : SdkHandler S) this w,
    (forall containers s1,
        sdk _ (BlobServiceClient_listContainers (client this)) (service w)
        = (inr containers, s1) ->
        fst (BlobContainer.listContainers sdk this w)
        = match failure_of containers with
          | Some error => inl (as_StorageError error)
          | None => inr (map containerItemName (items_of containers))
          end)
    /\ (forall containerName blobs s1,
           sdk _ (ContainerClient_listBlobsFlat (client this) containerName) (service w)
           = (inr blobs, s1) ->
           fst (BlobContainer.listBlobs sdk this containerName w)
           = match failure_of blobs with
             | Some error => inl (as_StorageError error)
             | None => inr (items_of blobs)
             end).
Proof.
  intros S sdk this w. split.
  - intros containers s1 Hsdk.
    rewrite (listContainers_wraps sdk this w), Hsdk. cbn [fst].
    rewrite for_await_spec.
    destruct (failure_of containers); [now rewrite as_StorageError_reported | reflexivity].
  - intros containerName blobs s1 Hsdk.
    rewrite (listBlobs_wraps sdk this containerName w), Hsdk. cbn [fst].
    rewrite for_await_spec.
    destruct (failure_of blobs); [now rewrite as_StorageError_reported|].
    cbn [app]. now rewrite map_id.
Qed.

Lemma blob_listings_are_all_or_nothing_witness :
  fst (BlobContainer.listContainers Flaky.sdk Demo.blobWithKey Demo.world)
  = inl (StorageError 503 "The server is busy.")
  /\ fst (BlobContainer.listBlobs Demo.sdk Demo.blobWithKey "c1" Demo.world)
     = inr [{| blobItemName := "a.csv"; blobContentLength := 8 |}].
Proof.
  split.
  - exact (proj1 (blob_listings_are_all_or_nothing unit Flaky.sdk Demo.blobWithKey
                    Demo.world)
             (prepend [{| containerItemName := "c1" |}] (Failed Flaky.busy)) tt eq_refl).
  - exact (proj2 (blob_listings_are_all_or_nothing unit Demo.sdk Demo.blobWithKey
                    Demo.world)
             "c1" (emits [{| blobItemName := "a.csv"; blobContentLength := 8 |}])
             tt eq_refl).
Defined.

(** ** Constructors *)

Ltac construction_failed_run H params sdk :=
  run_constructor H;
  destruct (truthy (givenAccountName params)) eqn:Hname; cbn [andb] in H;
  [ destruct (truthy (givenAccountKey params)) eqn:Hkey;
    [ rewrite (ToString_default_null _ Hkey) in H;
      match type of H with
      | context [sdk ?R ?c ?s] => destruct (sdk R c s) as [[?|?] ?] eqn:Hcred
      end;
      [ injection H as <- <-; right; left;
        split; [reflexivity|]; split; [reflexivity|];
        do 2 eexists; repeat split; first [reflexivity | eassumption | now rewrite <- app_assoc]
      | cbn [service calls] in H;
        match type of H with
        | context [sdk ?R ?c ?s] => destruct (sdk R c s) as [[?|?] ?] eqn:Hcl
        end; [|discriminate H];
        injection H as <- <-; right; right; left;
        split; [reflexivity|]; split; [reflexivity|];
        do 4 eexists; cbv zeta;
        repeat split; first [reflexivity | eassumption | now rewrite <- app_assoc] ]
    | destruct (truthy (givenSasToken params)) eqn:Hsas;
      [ rewrite (ToString_default_null _ Hsas) in H;
        match type of H with
        | context [sdk ?R ?c ?s] => destruct (sdk R c s) as [[?|?] ?] eqn:Hcl
        end; [|discriminate H];
        injection H as <- <-; right; right; right;
        split; [reflexivity|]; split; [reflexivity|]; split; [reflexivity|];
        do 2 eexists; cbv zeta; repeat split; first [reflexivity | eassumption | now rewrite <- app_assoc]
      | injection H as <- <-; left; auto ] ]
  | injection H as <- <-; left; auto ].

(** X5.  A constructor fails only with a [StorageError], and for one of
    these reasons: the account name, or both the key and the token, are
    missing -- then the SDK was not called and the error is
    [StorageError(500, 'Missing authentication')]; or, with a key, the
    credential constructor threw, or it returned and the client
    constructor then threw; or, without a key, the client constructor
    for the endpoint with the token threw.  In these cases the calls
    made are exactly those up to the one that threw, and the error
    carries its message and its status code, 500 by default. *)
Theorem constructor_failure_reasons :
  forall S (sdk : SdkHandler S) params w e w',
    (BlobContainer.constructor sdk params w = (inl e, w') ->
     construction_failed sdk storage_blob BlobServiceClient_new ".blob.core.windows.net"
       params w e w')
    /\ (StorageQueue.constructor sdk params w = (inl e, w') ->
        construction_failed sdk storage_queue QueueServiceClient_new
          ".queue.core.windows.net" params w e w').
Proof.
  intros S sdk params w e w'. split; intros H;
    unfold construction_failed; cbv zeta;
    construction_failed_run H params sdk.
Qed.

Lemma constructor_failure_reasons_witness :
  construction_failed Flaky.sdk storage_blob BlobServiceClient_new
    ".blob.core.windows.net" Demo.sharedKey Demo.world
    (StorageError 500 "Invalid URL")
    (snd (BlobContainer.constructor Flaky.sdk Demo.sharedKey Demo.world)).
Proof.
  apply (proj1 (constructor_failure_reasons unit Flaky.sdk Demo.sharedKey Demo.world
                  (StorageError 500 "Invalid URL")
                  (snd (BlobContainer.constructor Flaky.sdk Demo.sharedKey Demo.world)))).
  vm_compute. reflexivity.
Defined.

(** X6.  The account name is required in both modes: without a non-empty
    [accountName] the constructors fail with
    [StorageError(500, 'Missing authentication')] even when a key and a
    token are given, and they do not call the SDK. *)
Theorem constructor_requires_account_name :
  forall S (sdk : SdkHandler S) params w,
    truthy (givenAccountName params) = false ->
    BlobContainer.constructor sdk params w
    = (inl (StorageError 500 "Missing authentication"), w)
    /\ StorageQueue.constructor sdk params w
       = (inl (StorageError 500 "Missing authentication"), w).
Proof.
  intros S sdk params w Hname.
  cbv beta delta [BlobContainer.constructor StorageQueue.constructor try_catch throw];
    cbv zeta.
  rewrite Hname. split; reflexivity.
Qed.

Lemma constructor_requires_account_name_witness :
  BlobContainer.constructor Demo.sdk
    {| givenAccountName := str ""; givenAccountKey := str "a2V5";
       givenSasToken := str "sv=2019-07-07&sp=r&sig=c2ln" |} Demo.world
  = (inl (StorageError 500 "Missing authentication"), Demo.world).
Proof.
  exact (proj1 (constructor_requires_account_name unit Demo.sdk
                  {| givenAccountName := str ""; givenAccountKey := str "a2V5";
                     givenSasToken := str "sv=2019-07-07&sp=r&sig=c2ln" |}
                  Demo.world eq_refl)).
Defined.

(** X7.  With an account name and a key, the token plays no part: the
    SDK calls, the service state, the client and the signing credential
    are the same whatever [sasToken] is passed; only the [sasToken]
    field of the instance records it. *)
Theorem key_makes_token_irrelevant :
  forall S (sdk : SdkHandler S) name key token1 token2 w,
    truthy name = true ->
    truthy key = true ->
    let with_token token :=
      {| givenAccountName := name; givenAccountKey := key; givenSasToken := token |} in
    (snd (BlobContainer.constructor sdk (with_token token1) w)
     = snd (BlobContainer.constructor sdk (with_token token2) w)
     /\ same_but_sasToken (fst (BlobContainer.constructor sdk (with_token token1) w))
          (fst (BlobContainer.constructor sdk (with_token token2) w)))
    /\ (snd (StorageQueue.constructor sdk (with_token token1) w)
        = snd (StorageQueue.constructor sdk (with_token token2) w)
        /\ same_but_sasToken (fst (StorageQueue.constructor sdk (with_token token1) w))
             (fst (StorageQueue.constructor sdk (with_token token2) w))).
Proof.
  intros S sdk name key token1 token2 w Hname Hkey with_token. subst with_token.
  cbv beta delta [BlobContainer.constructor StorageQueue.constructor
                    try_catch bind invoke ret throw]; cbv zeta.
  cbn [givenAccountName givenAccountKey givenSasToken].
  rewrite !truthy_default_null, Hname, Hkey. cbn [andb].
  split.
  - destruct (sdk _ (StorageSharedKeyCredential_new storage_blob _ _) _)
      as [[u|cred] s1]; cbn [fst snd service calls same_but_sasToken]; [auto|].
    destruct (sdk _ (BlobServiceClient_new _ _) _) as [[u|cl] s2];
      cbn [fst snd same_but_sasToken accountName accountKey sharedKeyCredential client];
      auto.
  - destruct (sdk _ (StorageSharedKeyCredential_new storage_queue _ _) _)
      as [[u|cred] s1]; cbn [fst snd service calls same_but_sasToken]; [auto|].
    destruct (sdk _ (QueueServiceClient_new _ _) _) as [[u|cl] s2];
      cbn [fst snd same_but_sasToken accountName accountKey sharedKeyCredential client];
      auto.
Qed.

Lemma key_makes_token_irrelevant_witness :
  snd (BlobContainer.constructor Demo.sdk Demo.keyAndSas Demo.world)
  = snd (BlobContainer.constructor Demo.sdk Demo.sharedKey Demo.world).
Proof.
  exact (proj1 (proj1 (key_makes_token_irrelevant unit Demo.sdk
                         (str "devstoreaccount1") (str "a2V5")
                         (str "sv=2019-07-07&sp=r&sig=c2ln") undefined
                         Demo.world eq_refl eq_refl))).
Defined.

(** ** storagequeue.js: message options *)


(** ** SAS generation *)

Lemma SAS_values_dates c b q p s e :
  (BlobContainer.blobSASSignatureValues c b p s e !! "startsOn" = Some (JsDate s)
   /\ BlobContainer.blobSASSignatureValues c b p s e !! "expiresOn" = Some (JsDate e))
  /\ (BlobContainer.containerSASSignatureValues c p s e !! "startsOn" = Some (JsDate s)
      /\ BlobContainer.containerSASSignatureValues c p s e !! "expiresOn"
         = Some (JsDate e))
  /\ (StorageQueue.queueSASSignatureValues q p s e !! "startsOn" = Some (JsDate s)
      /\ StorageQueue.queueSASSignatureValues q p s e !! "expiresOn" = Some (JsDate e)).
Proof. repeat split; vm_compute; reflexivity. Qed.

Lemma last_of_two {A} (l : list A) (a b : A) : last (l ++ [a; b]) = Some b.
Proof. change [a; b] with ([a] ++ [b])%list. rewrite app_assoc. apply last_snoc. Qed.

Lemma TimeClip_in_range (t : Z) :
  Z.abs t <= 8640000000000000 -> Date.TimeClip t = Some t.
Proof.
  intros H. unfold Date.TimeClip.
  destruct (Z.ltb_spec 8640000000000000 (Z.abs t)); [lia | reflexivity].
Qed.

(** X9.  For whole numbers of minutes (the parameters are integers
    here; a fractional count, which [setMinutes] truncates, is outside
    this statement): in a process whose time zone has a fixed offset
    (UTC, say), every token that [generateSasToken] returns for an
    integer [expireTime] and an integer [clockSkewMarginMinutes] was
    signed for the window from [clockSkewMarginMinutes] (5 when omitted)
    minutes before the clock reading to [expireTime] (60 when omitted)
    minutes after it, as long as both ends are dates that [Date] can
    hold.  The integers are not checked: a negative [expireTime] puts
    the expiry before now. *)
Theorem generateSasToken_window_fixed_offset :
  forall S (sdk : SdkHandler S) (LocalTZA : Z -> bool -> Z) (tza : Z) this now
         expireTime clockSkewMarginMinutes,
    (forall t isUTC, LocalTZA t isUTC = tza) ->
    let margin := default 5 clockSkewMarginMinutes in
    let expire := default 60 expireTime in
    Z.abs (now - margin * Date.msPerMinute) <= 8640000000000000 ->
    Z.abs (now + expire * Date.msPerMinute) <= 8640000000000000 ->
    (forall containerName blobName permissions w token w',
        BlobContainer.generateSasToken sdk LocalTZA this now
          {| BlobContainer.containerName := containerName;
             BlobContainer.blobName := blobName;
             BlobContainer.permissions := permissions;
             BlobContainer.expireTime := expireTime;
             BlobContainer.clockSkewMarginMinutes := clockSkewMarginMinutes |} w
        = (inr token, w') ->
        exists values,
          last (calls w')
          = Some (Invoked (generateBlobSASQueryParameters values (sharedKeyCredential this)))
          /\ values !! "startsOn" = Some (JsDate (Some (now - margin * Date.msPerMinute)))
          /\ values !! "expiresOn" = Some (JsDate (Some (now + expire * Date.msPerMinute))))
    /\ (forall queueName permissions w token w',
           StorageQueue.generateSasToken sdk LocalTZA this now
             {| StorageQueue.queueName := queueName;
                StorageQueue.permissions := permissions;
                StorageQueue.expireTime := expireTime;
                StorageQueue.clockSkewMarginMinutes := clockSkewMarginMinutes |} w
           = (inr token, w') ->
           exists values,
             last (calls w')
             = Some (Invoked (generateQueueSASQueryParameters values
                                (sharedKeyCredential this)))
             /\ values !! "startsOn"
                = Some (JsDate (Some (now - margin * Date.msPerMinute)))
             /\ values !! "expiresOn"
                = Some (JsDate (Some (now + expire * Date.msPerMinute)))).
Proof.
  intros S sdk LocalTZA tza this now expireTime clockSkewMarginMinutes Hfixed
    margin expire Hstart Hexpiry.
  pose proof (sasDates_fixed_offset LocalTZA tza now expire margin Hfixed) as [Hblob Hqueue].
  rewrite (TimeClip_in_range _ Hstart), (TimeClip_in_range _ Hexpiry) in Hblob.
  rewrite Hblob in Hqueue.
  split.
  - intros containerName blobName permissions w token w' Hrun.
    pose proof (BlobContainer_generateSasToken_calls sdk LocalTZA this now
                  {| BlobContainer.containerName := containerName;
                     BlobContainer.blobName := blobName;
                     BlobContainer.permissions := permissions;
                     BlobContainer.expireTime := expireTime;
                     BlobContainer.clockSkewMarginMinutes := clockSkewMarginMinutes |} w)
      as Hcalls.
    cbv zeta in Hcalls.
    cbn [BlobContainer.containerName BlobContainer.blobName BlobContainer.permissions
           BlobContainer.expireTime BlobContainer.clockSkewMarginMinutes] in Hcalls.
    fold margin expire in Hcalls. rewrite Hblob in Hcalls. cbn [fst snd] in Hcalls.
    destruct (sdk SASPermissions _ (service w)) as [[e|parsed] s1].
    + rewrite Hcalls in Hrun. discriminate Hrun.
    + rewrite Hcalls in Hrun. injection Hrun as _ <-. cbn [calls].
      eexists. split.
      * apply last_of_two.
      * destruct (truthy blobName); apply SAS_values_dates; exact "".
  - intros queueName permissions w token w' Hrun.
    pose proof (StorageQueue_generateSasToken_calls sdk LocalTZA this now
                  {| StorageQueue.queueName := queueName;
                     StorageQueue.permissions := permissions;
                     StorageQueue.expireTime := expireTime;
                     StorageQueue.clockSkewMarginMinutes := clockSkewMarginMinutes |} w)
      as Hcalls.
    cbv zeta in Hcalls.
    cbn [StorageQueue.queueName StorageQueue.permissions
           StorageQueue.expireTime StorageQueue.clockSkewMarginMinutes] in Hcalls.
    fold margin expire in Hcalls. rewrite Hqueue in Hcalls. cbn [fst snd] in Hcalls.
    destruct (sdk SASPermissions _ (service w)) as [[e|parsed] s1].
    + rewrite Hcalls in Hrun. discriminate Hrun.
    + rewrite Hcalls in Hrun. injection Hrun as _ <-. cbn [calls].
      eexists. split.
      * apply last_of_two.
      * apply (SAS_values_dates "" "").
Qed.

Lemma generateSasToken_window_fixed_offset_witness :
  exists values,
    last (calls (snd (BlobContainer.generateSasToken Demo.sdk Demo.utc Demo.blobWithKey
                        1590000000000
                        {| BlobContainer.containerName := "c1";
                           BlobContainer.blobName := str "a.csv";
                           BlobContainer.permissions := undefined;
                           BlobContainer.expireTime := Some 10;
                           BlobContainer.clockSkewMarginMinutes := None |}
                        Demo.world)))
    = Some (Invoked (generateBlobSASQueryParameters values
                       (sharedKeyCredential Demo.blobWithKey)))
    /\ values !! "startsOn" = Some (JsDate (Some (1590000000000 - 5 * Date.msPerMinute)))
    /\ values !! "expiresOn" = Some (JsDate (Some (1590000000000 + 10 * Date.msPerMinute))).
Proof.
  refine (proj1
    (generateSasToken_window_fixed_offset unit Demo.sdk Demo.utc 0 Demo.blobWithKey
       1590000000000 (Some 10) None (fun t isUTC => eq_refl) _ _)
    "c1" (str "a.csv") undefined Demo.world "sv=2019-07-07&sp=r&sig=c2ln" _ _).
  - vm_compute. intros H. discriminate H.
  - vm_compute. intros H. discriminate H.
  - vm_compute. reflexivity.
Defined.

(** X10.  [generateSasToken] sends nothing to the storage service: the
    calls it adds to the log, at most two, are the parsing of the
    permission string and the signing, whatever its arguments and
    whether it returns or throws. *)
Theorem generateSasToken_calls_are_local :
  forall S (sdk : SdkHandler S) (LocalTZA : Z -> bool -> Z) this now w,
    (forall params,
        exists new,
          calls (snd (BlobContainer.generateSasToken sdk LocalTZA this now params w))
          = (calls w ++ new)%list
          /\ forallb is_local new = true
          /\ (length new <= 2)%nat)
    /\ (forall params,
           exists new,
             calls (snd (StorageQueue.generateSasToken sdk LocalTZA this now params w))
             = (calls w ++ new)%list
             /\ forallb is_local new = true
             /\ (length new <= 2)%nat).
Proof.
  intros S sdk LocalTZA this now w. split; intros params.
  - pose proof (BlobContainer_generateSasToken_calls sdk LocalTZA this now params w) as H.
    cbv zeta in H.
    destruct (truthy (BlobContainer.blobName params));
      destruct (sdk SASPermissions _ (service w)) as [[e|parsed] s1];
      rewrite H; cbn [snd calls]; eexists; (split; [reflexivity|]);
      cbn; split; (reflexivity || lia).
  - pose proof (StorageQueue_generateSasToken_calls sdk LocalTZA this now params w) as H.
    cbv zeta in H.
    destruct (sdk SASPermissions _ (service w)) as [[e|parsed] s1];
      rewrite H; cbn [snd calls]; eexists; (split; [reflexivity|]);
      cbn; split; (reflexivity || lia).
Qed.

(** X11.  A token that [BlobContainer.generateSasToken] returns was
    signed for the container it was asked for and, when a non-empty
    blob name was given, for that blob; with no blob name, or an empty
    one, the signed values have no [blobName].  Its permissions are the
    result of parsing the given string, or ['r'] when none or the empty
    string was given, with [BlobSASPermissions] in the first case and
    [ContainerSASPermissions] in the second. *)
Theorem blob_token_scope :
  forall S (sdk : SdkHandler S) (LocalTZA : Z -> bool -> Z) this now params w token w',
    BlobContainer.generateSasToken sdk LocalTZA this now params w = (inr token, w') ->
    let perms :=
      match BlobContainer.permissions params with
      | str p => if String.eqb p "" then "r" else p
      | _ => "r"
      end in
    let parse :=
      if truthy (BlobContainer.blobName params)
      then BlobSASPermissions_parse perms
      else ContainerSASPermissions_parse perms in
    exists values parsed,
      fst (sdk _ parse (service w)) = inr parsed
      /\ last (calls w')
         = Some (Invoked (generateBlobSASQueryParameters values (sharedKeyCredential this)))
      /\ values !! "permissions" = Some (JsPermissions parsed)
      /\ values !! "containerName" = Some (JsString (BlobContainer.containerName params))
      /\ values !! "blobName"
         = match BlobContainer.blobName params with
           | str b => if String.eqb b "" then None else Some (JsString b)
           | _ => None
           end.
Proof.
  intros S sdk LocalTZA this now params w token w' Hrun perms parse.
  pose proof (BlobContainer_generateSasToken_calls sdk LocalTZA this now params w) as H.
  cbv zeta in H. rewrite permissions_default in H. fold perms in H. fold parse in H.
  destruct (sdk SASPermissions parse (service w)) as [[e|parsed] s1];
    rewrite H in Hrun; [discriminate Hrun|].
  injection Hrun as _ <-. cbn [calls fst].
  eexists _, parsed. split; [reflexivity|]. split; [apply last_of_two|].
  destruct (BlobContainer.blobName params) as [| |b]; cbn [truthy ToString];
    try (repeat split; apply containerSASSignatureValues_scope).
  destruct (String.eqb b ""); cbn [negb];
    [ repeat split; apply containerSASSignatureValues_scope
    | repeat split; apply blobSASSignatureValues_scope ].
Qed.

Lemma blob_token_scope_witness :
  exists values parsed,
    fst (Demo.sdk _ (BlobSASPermissions_parse "r") tt) = inr parsed
    /\ last (calls (snd (BlobContainer.generateSasToken Demo.sdk Demo.utc Demo.blobWithKey
                           1590000000000
                           {| BlobContainer.containerName := "c1";
                              BlobContainer.blobName := str "a.csv";
                              BlobContainer.permissions := str "";
                              BlobContainer.expireTime := None;
                              BlobContainer.clockSkewMarginMinutes := None |}
                           Demo.world)))
       = Some (Invoked (generateBlobSASQueryParameters values
                          (sharedKeyCredential Demo.blobWithKey)))
    /\ values !! "permissions" = Some (JsPermissions parsed)
    /\ values !! "containerName" = Some (JsString "c1")
    /\ values !! "blobName" = Some (JsString "a.csv").
Proof.
  apply (blob_token_scope unit Demo.sdk Demo.utc Demo.blobWithKey 1590000000000
           {| BlobContainer.containerName := "c1";
              BlobContainer.blobName := str "a.csv";
              BlobContainer.permissions := str "";
              BlobContainer.expireTime := None;
              BlobContainer.clockSkewMarginMinutes := None |}
           Demo.world "sv=2019-07-07&sp=r&sig=c2ln").
  vm_compute. reflexivity.
Defined.
